(** * Wardrobe panel (src/components/WardrobeModal.tsx)

    A shallow embedding of the panel's view logic: the [urlToFile] helper,
    the seven [useState] cells of [WardrobePanel], its five event handlers
    and the render conditions the handlers interact with.

    Conventions.
    - A JavaScript string is the list of its UTF-16 code units.
    - An event handler closes over the state of the render it was created
      in and emits, in program order, calls of state setters and of
      collaborators; it is a function from that snapshot to the list of
      calls it makes.  React applies the setter calls to the current state.
    - The browser (image decoder, canvas, clock, object URLs) is an oracle
      passed as an argument. *)

From Stdlib Require Import List NArith ZArith Bool Ascii String DecimalString Lia.
From Stdlib Require DecimalPos DecimalZ.
Import ListNotations.

(** ** JavaScript strings *)

Definition jsstring := list N.

(** The code units of an ASCII literal of the source. *)
Definition lit (s : string) : jsstring :=
  map N_of_ascii (list_ascii_of_string s).

Fixpoint str_eqb (a b : jsstring) : bool :=
  match a, b with
  | [], [] => true
  | x :: a', y :: b' => N.eqb x y && str_eqb a' b'
  | _, _ => false
  end.

(** [String.prototype.startsWith]. *)
Fixpoint startsWith (s prefix : jsstring) : bool :=
  match prefix, s with
  | [], _ => true
  | p :: prefix', c :: s' => N.eqb c p && startsWith s' prefix'
  | _ :: _, [] => false
  end.

(** [Array.prototype.includes] on an array of strings. *)
Definition includes (l : list jsstring) (x : jsstring) : bool :=
  existsb (str_eqb x) l.

(** WhiteSpace and LineTerminator code points of ECMAScript, the ones
    [String.prototype.trim] strips; all lie in the basic plane. *)
Definition isWhiteSpace (c : N) : bool :=
  let eq := N.eqb c in
  (eq 9 || eq 10 || eq 11 || eq 12 || eq 13 || eq 32 || eq 160 || eq 5760
   || (N.leb 8192 c && N.leb c 8202)
   || eq 8232 || eq 8233 || eq 8239 || eq 8287 || eq 12288 || eq 65279)%N.

Fixpoint trimStart (s : jsstring) : jsstring :=
  match s with
  | c :: s' => if isWhiteSpace c then trimStart s' else s
  | [] => []
  end.

Definition trimEnd (s : jsstring) : jsstring := rev (trimStart (rev s)).

Definition trim (s : jsstring) : jsstring := trimEnd (trimStart s).

(** Truthiness of a string: every string but the empty one. *)
Definition truthy (s : jsstring) : bool :=
  match s with [] => false | _ :: _ => true end.

(** Truthiness of [string | null]. *)
Definition truthy_opt (o : option jsstring) : bool :=
  match o with Some s => truthy s | None => false end.

(** [a || b] on strings. *)
Definition or_else (a b : jsstring) : jsstring := if truthy a then a else b.

(** Decimal rendering of an integral Number, as a template literal does. *)
Definition numberToString (n : Z) : jsstring :=
  lit (NilZero.string_of_int (Z.to_int n)).

(** Surrogate code units. *)
Definition isHighSurrogate (c : N) : bool := (N.leb 55296 c && N.leb c 56319)%N.

Definition isLowSurrogate (c : N) : bool := (N.leb 56320 c && N.leb c 57343)%N.

(** The conversion of a string to a USVString, which the DOM applies to
    the name given to [new File]: a surrogate that is not part of a pair
    becomes U+FFFD. *)
Fixpoint toUSVString (s : jsstring) : jsstring :=
  match s with
  | [] => []
  | c :: rest =>
      if isHighSurrogate c then
        match rest with
        | d :: rest' =>
            if isLowSurrogate d then c :: d :: toUSVString rest'
            else 65533%N :: toUSVString rest
        | [] => [65533%N]
        end
      else if isLowSurrogate c then 65533%N :: toUSVString rest
      else c :: toUSVString rest
  end.

(** [String.prototype.isWellFormed]: no surrogate outside a pair. *)
Fixpoint isWellFormed (s : jsstring) : bool :=
  match s with
  | [] => true
  | c :: rest =>
      if isHighSurrogate c then
        match rest with
        | d :: rest' => isLowSurrogate d && isWellFormed rest'
        | [] => false
        end
      else negb (isLowSurrogate c) && isWellFormed rest
  end.

(** ** Data model (types.ts) *)

Module WardrobeItem.
Record t := Build { id : jsstring; name : jsstring; url : jsstring }.
End WardrobeItem.

Module SavedLook.
Record t := Build {
  id : jsstring;
  name : jsstring;
  url : jsstring;
  createdAt : Z;
  garmentColors : option (list jsstring)
}.
End SavedLook.

(** ** DOM values *)

Record Blob := { blob_type : jsstring; blob_bytes : list N }.

Record File := {
  file_parts : list Blob;
  file_name : jsstring;
  file_type : jsstring
}.

Record Image := {
  naturalWidth : N;
  naturalHeight : N;
  image_pixels : list N
}.

Record Canvas := {
  canvas_width : N;
  canvas_height : N;
  canvas_drawn : option (Image * Z * Z)
}.

Record JsError := { message : jsstring }.

(** What setting [image.src] leads to: the load event, the error event
    (rendered as a string by the template literal of the error handler), or
    neither of them, for a load that never ends: the source sets no
    timeout. *)
Inductive ImageEvent :=
| onload (image : Image)
| onerror (error : jsstring)
| hung.

(** The hosting environment of one [urlToFile] call. *)
Record Browser := {
  decode : jsstring -> ImageEvent;           (* image.src = url *)
  getContext : Canvas -> bool;               (* canvas.getContext('2d'), false for null *)
  toBlob : Canvas -> jsstring -> option Blob (* blob handed to the callback *)
}.

(** ** Image acquisition: [urlToFile] *)

(** The observable actions of the promise executor, in program order. *)
Inductive Action :=
| setCrossOrigin (value : jsstring)
| setSrc (url : jsstring)
| createCanvas (width height : N)
| getContext2d
| drawImage (image : Image) (dx dy : Z)
| callToBlob (type : jsstring)
| resolve (file : File)
| reject (e : JsError).

Definition drawn (c : Canvas) (image : Image) (dx dy : Z) : Canvas :=
  {| canvas_width := canvas_width c;
     canvas_height := canvas_height c;
     canvas_drawn := Some (image, dx, dy) |}.

(** A fresh canvas given the natural size of the image. *)
Definition sized_canvas (image : Image) : Canvas :=
  {| canvas_width := naturalWidth image;
     canvas_height := naturalHeight image;
     canvas_drawn := None |}.

Definition image_onload (b : Browser) (filename : jsstring) (image : Image)
  : list Action :=
  let canvas := sized_canvas image in
  [createCanvas (canvas_width canvas) (canvas_height canvas); getContext2d] ++
  if negb (getContext b canvas) then
    [reject {| message := lit "Could not get canvas context." |}]
  else
    [drawImage image 0 0; callToBlob (lit "image/png")] ++
    match toBlob b (drawn canvas image 0 0) (lit "image/png") with
    | None => [reject {| message := lit "Canvas toBlob failed." |}]
    | Some blob =>
        let mimeType := or_else (blob_type blob) (lit "image/png") in
        let file := {| file_parts := [blob];
                       file_name := toUSVString filename;
                       file_type := mimeType |} in
        [resolve file]
    end.

Definition image_onerror (error : jsstring) : list Action :=
  [reject {| message :=
     lit "Could not load image from URL for canvas conversion. Error: "
       ++ error |}].

Definition urlToFile (b : Browser) (url filename : jsstring) : list Action :=
  [setCrossOrigin (lit "anonymous"); setSrc url] ++
  match decode b url with
  | onload image => image_onload b filename image
  | onerror error => image_onerror error
  | hung => []
  end.

(** A promise settles at the first call of [resolve] or [reject]; later
    calls are ignored. *)
Inductive Promise :=
| Pending
| Fulfilled (file : File)
| Rejected (e : JsError).

Definition settle (p : Promise) (a : Action) : Promise :=
  match p, a with
  | Pending, resolve file => Fulfilled file
  | Pending, reject e => Rejected e
  | _, _ => p
  end.

Definition promise_of (acts : list Action) : Promise :=
  fold_left settle acts Pending.

(** The calls of [resolve] and [reject] among the actions. *)
Definition settlements (acts : list Action) : list Action :=
  filter (fun a => match a with resolve _ | reject _ => true | _ => false end)
         acts.

(** ** The panel: props, state cells, calls *)

Inductive Tab := garments | looks.

(** The data-valued props of [WardrobePanelProps]; the callback props are
    constructors of [Call] below. *)
Record Props := {
  activeGarmentIds : list jsstring;
  isLoading : bool;
  wardrobe : list WardrobeItem.t;
  savedLooks : list SavedLook.t;
  displayImageUrl : option jsstring
}.

(** The seven [useState] cells. *)
Record PanelState := {
  error : option jsstring;
  activeTab : Tab;
  isSaveModalOpen : bool;
  newLookName : jsstring;
  selectedGarmentForColor : option WardrobeItem.t;
  selectedColor : jsstring;
  pendingFile : option File
}.

Definition initialState : PanelState :=
  {| error := None;
     activeTab := garments;
     isSaveModalOpen := false;
     newLookName := lit "";
     selectedGarmentForColor := None;
     selectedColor := lit "Original";
     pendingFile := None |}.

(** What a handler can call: a state setter, a callback prop, or the
    environment. *)
Inductive Call :=
| setError (v : option jsstring)
| setActiveTab (v : Tab)
| setIsSaveModalOpen (v : bool)
| setNewLookName (v : jsstring)
| setSelectedGarmentForColor (v : option WardrobeItem.t)
| setSelectedColor (v : jsstring)
| setPendingFile (v : option File)
| onGarmentSelect (garmentFile : File) (garmentInfo : WardrobeItem.t)
                  (color : jsstring)
| onSaveLook (name : jsstring)
| onDeleteLook (id : jsstring)
| onSelectLook (look : SavedLook.t)
| console_error (msg : jsstring) (err : JsError)
| preventDefault.

Definition is_setter (c : Call) : bool :=
  match c with
  | setError _ | setActiveTab _ | setIsSaveModalOpen _ | setNewLookName _
  | setSelectedGarmentForColor _ | setSelectedColor _ | setPendingFile _ => true
  | _ => false
  end.

(** The callback props, owned by the parent component. *)
Definition is_callback (c : Call) : bool :=
  match c with
  | onGarmentSelect _ _ _ | onSaveLook _ | onDeleteLook _ | onSelectLook _ => true
  | _ => false
  end.

(** One setter call applied to the state; other calls leave it alone. *)
Definition apply_call (s : PanelState) (c : Call) : PanelState :=
  match c with
  | setError v =>
      {| error := v; activeTab := activeTab s;
         isSaveModalOpen := isSaveModalOpen s; newLookName := newLookName s;
         selectedGarmentForColor := selectedGarmentForColor s;
         selectedColor := selectedColor s; pendingFile := pendingFile s |}
  | setActiveTab v =>
      {| error := error s; activeTab := v;
         isSaveModalOpen := isSaveModalOpen s; newLookName := newLookName s;
         selectedGarmentForColor := selectedGarmentForColor s;
         selectedColor := selectedColor s; pendingFile := pendingFile s |}
  | setIsSaveModalOpen v =>
      {| error := error s; activeTab := activeTab s;
         isSaveModalOpen := v; newLookName := newLookName s;
         selectedGarmentForColor := selectedGarmentForColor s;
         selectedColor := selectedColor s; pendingFile := pendingFile s |}
  | setNewLookName v =>
      {| error := error s; activeTab := activeTab s;
         isSaveModalOpen := isSaveModalOpen s; newLookName := v;
         selectedGarmentForColor := selectedGarmentForColor s;
         selectedColor := selectedColor s; pendingFile := pendingFile s |}
  | setSelectedGarmentForColor v =>
      {| error := error s; activeTab := activeTab s;
         isSaveModalOpen := isSaveModalOpen s; newLookName := newLookName s;
         selectedGarmentForColor := v;
         selectedColor := selectedColor s; pendingFile := pendingFile s |}
  | setSelectedColor v =>
      {| error := error s; activeTab := activeTab s;
         isSaveModalOpen := isSaveModalOpen s; newLookName := newLookName s;
         selectedGarmentForColor := selectedGarmentForColor s;
         selectedColor := v; pendingFile := pendingFile s |}
  | setPendingFile v =>
      {| error := error s; activeTab := activeTab s;
         isSaveModalOpen := isSaveModalOpen s; newLookName := newLookName s;
         selectedGarmentForColor := selectedGarmentForColor s;
         selectedColor := selectedColor s; pendingFile := v |}
  | _ => s
  end.

Definition apply_calls (calls : list Call) (s : PanelState) : PanelState :=
  fold_left apply_call calls s.

(** The calls that leave the component: everything but the setters. *)
Definition effects (calls : list Call) : list Call :=
  filter (fun c => negb (is_setter c)) calls.

Definition callbacks (calls : list Call) : list Call :=
  filter is_callback calls.

(** ** The swatches *)

Record Swatch := { swatch_name : jsstring; hex : jsstring }.

Definition COLORS : list Swatch :=
  [ {| swatch_name := lit "Original"; hex := lit "transparent" |};
    {| swatch_name := lit "Black"; hex := lit "#000000" |};
    {| swatch_name := lit "White"; hex := lit "#FFFFFF" |};
    {| swatch_name := lit "Gray"; hex := lit "#808080" |};
    {| swatch_name := lit "Red"; hex := lit "#EF4444" |};
    {| swatch_name := lit "Blue"; hex := lit "#3B82F6" |};
    {| swatch_name := lit "Green"; hex := lit "#22C55E" |};
    {| swatch_name := lit "Yellow"; hex := lit "#EAB308" |};
    {| swatch_name := lit "Purple"; hex := lit "#A855F7" |};
    {| swatch_name := lit "Pink"; hex := lit "#EC4899" |};
    {| swatch_name := lit "Orange"; hex := lit "#F97316" |};
    {| swatch_name := lit "Brown"; hex := lit "#78350F" |} ].

(** ** Event handlers *)

(** An [async] handler runs up to its [await] of [urlToFile] and is resumed
    by the settlement of that promise: in the [try] body when it fulfils, in
    the [catch] clause when it rejects. *)
Inductive Handler :=
| Return (calls : list Call)
| Await (calls : list Call) (url filename : jsstring)
        (try_body : File -> list Call) (catch : JsError -> list Call).

Definition detailedError : jsstring :=
  lit "Failed to load wardrobe item. This is often a CORS issue. Check the developer console for details.".

Definition handleGarmentClick (props : Props) (item : WardrobeItem.t)
  : Handler :=
  if isLoading props
     || includes (activeGarmentIds props) (WardrobeItem.id item)
  then Return []
  else
    Await [setError None]
      (WardrobeItem.url item) (WardrobeItem.name item)
      (fun file =>
         [setPendingFile (Some file);
          setSelectedGarmentForColor (Some item);
          setSelectedColor (lit "Original")])
      (fun err =>
         [setError (Some detailedError);
          console_error
            (lit "[CORS Check] Failed to load and convert wardrobe item from URL: "
               ++ WardrobeItem.url item ++ lit ".") err]).

Definition handleApplyGarment (s : PanelState) : list Call :=
  match pendingFile s, selectedGarmentForColor s with
  | Some file, Some item =>
      [onGarmentSelect file item (selectedColor s);
       setPendingFile None;
       setSelectedGarmentForColor None;
       setSelectedColor (lit "Original")]
  | _, _ => []
  end.

Definition handleCancelColorSelection : list Call :=
  [setPendingFile None; setSelectedGarmentForColor None].

(** [Date.now()] and [URL.createObjectURL] as the page sees them. *)
Record Window := {
  Date_now : Z;
  createObjectURL : File -> jsstring
}.

(** [files] is [e.target.files]: [None] for null, else the chosen files. *)
Definition handleFileChange (w : Window) (files : option (list File))
  : list Call :=
  match files with
  | Some (file :: _) =>
      if negb (startsWith (file_type file) (lit "image/")) then
        [setError (Some (lit "Please select an image file."))]
      else
        let customGarmentInfo :=
          {| WardrobeItem.id := lit "custom-" ++ numberToString (Date_now w);
             WardrobeItem.name := file_name file;
             WardrobeItem.url := createObjectURL w file |} in
        [setPendingFile (Some file);
         setSelectedGarmentForColor (Some customGarmentInfo);
         setSelectedColor (lit "Original")]
  | _ => []
  end.

Definition handleSaveSubmit (s : PanelState) : list Call :=
  preventDefault ::
  if truthy (trim (newLookName s)) then
    [onSaveLook (trim (newLookName s));
     setNewLookName (lit "");
     setIsSaveModalOpen false;
     setActiveTab looks]
  else [].

(** ** Render conditions *)

(** [disabled={isLoading || isActive}] of a garment button. *)
Definition garmentButton_disabled (props : Props) (item : WardrobeItem.t)
  : bool :=
  isLoading props || includes (activeGarmentIds props) (WardrobeItem.id item).

(** [disabled={isLoading}] of the upload input. *)
Definition upload_disabled (props : Props) : bool := isLoading props.

(** [disabled={isLoading || !displayImageUrl}] of "Save Current Look". *)
Definition saveCurrentLook_disabled (props : Props) : bool :=
  isLoading props || negb (truthy_opt (displayImageUrl props)).

(** [{error && <p>...}]. *)
Definition errorMessage_shown (s : PanelState) : bool := truthy_opt (error s).

(** [{isSaveModalOpen && ...}]. *)
Definition saveModal_shown (s : PanelState) : bool := isSaveModalOpen s.

(** [disabled={!newLookName.trim()}] of the Save button. *)
Definition saveSubmit_disabled (s : PanelState) : bool :=
  negb (truthy (trim (newLookName s))).

(** [{selectedGarmentForColor && ...}], the color selection sub-view. *)
Definition colorModal_shown (s : PanelState) : bool :=
  match selectedGarmentForColor s with Some _ => true | None => false end.

(** ** The running component *)

(** An [urlToFile] promise a suspended handler is waiting for. *)
Record Acquisition := {
  acq_url : jsstring;
  acq_filename : jsstring;
  acq_try : File -> list Call;
  acq_catch : JsError -> list Call
}.

(** The component between two events: its state, the suspended handlers,
    and every call that left the component so far, oldest first. *)
Record System := {
  panel : PanelState;
  inflight : list Acquisition;
  log : list Call
}.

Definition initialSystem : System :=
  {| panel := initialState; inflight := []; log := [] |}.

Definition perform (calls : list Call) (sys : System) : System :=
  {| panel := apply_calls calls (panel sys);
     inflight := inflight sys;
     log := log sys ++ effects calls |}.

Definition awaited (h : Handler) : option Acquisition :=
  match h with
  | Return _ => None
  | Await _ url filename try_body catch =>
      Some {| acq_url := url; acq_filename := filename;
              acq_try := try_body; acq_catch := catch |}
  end.

Definition run (h : Handler) (sys : System) : System :=
  match h with
  | Return calls => perform calls sys
  | Await calls url filename try_body catch =>
      let sys' := perform calls sys in
      {| panel := panel sys';
         inflight := inflight sys' ++
                     [{| acq_url := url; acq_filename := filename;
                         acq_try := try_body; acq_catch := catch |}];
         log := log sys' |}
  end.

Definition remove_nth {A} (n : nat) (l : list A) : list A :=
  firstn n l ++ skipn (S n) l.

(** What can happen to the component.  Props are owned by the parent, so
    each event that reads them carries their value at that moment. *)
Inductive Event :=
| clickGarment (props : Props) (item : WardrobeItem.t)
| acquired (n : nat) (b : Browser)
| changeFile (w : Window) (files : option (list File))
| clickSwatch (n : nat)
| clickApply
| clickCancelColor
| clickTab (tab : Tab)
| clickSaveCurrentLook
| clickCloseSaveModal
| inputLookName (value : jsstring)
| submitSave
| clickWear (look : SavedLook.t)
| clickDelete (look : SavedLook.t).

Definition dispatch (e : Event) (sys : System) : System :=
  match e with
  | clickGarment props item => run (handleGarmentClick props item) sys
  | acquired n b =>
      match nth_error (inflight sys) n with
      | None => sys
      | Some a =>
          let rest := {| panel := panel sys;
                         inflight := remove_nth n (inflight sys);
                         log := log sys |} in
          match promise_of (urlToFile b (acq_url a) (acq_filename a)) with
          | Pending => sys
          | Fulfilled file => perform (acq_try a file) rest
          | Rejected err => perform (acq_catch a err) rest
          end
      end
  | changeFile w files => perform (handleFileChange w files) sys
  | clickSwatch n =>
      match nth_error COLORS n with
      | Some color => perform [setSelectedColor (swatch_name color)] sys
      | None => sys
      end
  | clickApply => perform (handleApplyGarment (panel sys)) sys
  | clickCancelColor => perform handleCancelColorSelection sys
  | clickTab tab => perform [setActiveTab tab] sys
  | clickSaveCurrentLook => perform [setIsSaveModalOpen true] sys
  | clickCloseSaveModal => perform [setIsSaveModalOpen false] sys
  | inputLookName value => perform [setNewLookName value] sys
  | submitSave => perform (handleSaveSubmit (panel sys)) sys
  | clickWear look => perform [onSelectLook look] sys
  | clickDelete look => perform [onDeleteLook (SavedLook.id look)] sys
  end.

Definition dispatch_all (events : list Event) (sys : System) : System :=
  fold_left (fun s e => dispatch e s) events sys.

(** ** Invariants of the running component *)

(** Every suspended handler is a garment click waiting for its file. *)
Definition wf_acquisition (a : Acquisition) : Prop :=
  exists props item, awaited (handleGarmentClick props item) = Some a.

(** The pending file and the candidate item are set and cleared together. *)
Definition paired (s : PanelState) : Prop :=
  pendingFile s = None <-> selectedGarmentForColor s = None.

(** The selected color is the name of one of the swatches. *)
Definition color_is_swatch (s : PanelState) : Prop :=
  In (selectedColor s) (map swatch_name COLORS).

Definition invariant (sys : System) : Prop :=
  paired (panel sys) /\ color_is_swatch (panel sys)
  /\ Forall wf_acquisition (inflight sys).

(** The pending selection as one tuple. *)
Definition pending_selection (sys : System)
  : option File * option WardrobeItem.t * jsstring :=
  (pendingFile (panel sys), selectedGarmentForColor (panel sys),
   selectedColor (panel sys)).

(** ** Sample inputs *)

Definition sample_image : Image :=
  {| naturalWidth := 2; naturalHeight := 3; image_pixels := [255; 0; 0]%N |}.

Definition png_blob : Blob :=
  {| blob_type := lit "image/png"; blob_bytes := [137; 80; 78; 71]%N |}.

(** A browser in which every step of the conversion works. *)
Definition browser_ok : Browser :=
  {| decode := fun _ => onload sample_image;
     getContext := fun _ => true;
     toBlob := fun _ _ => Some png_blob |}.

(** The image cannot be loaded (for instance, refused cross-origin). *)
Definition browser_unreadable : Browser :=
  {| decode := fun _ => onerror (lit "[object Event]");
     getContext := fun _ => true;
     toBlob := fun _ _ => Some png_blob |}.

(** No 2d context is available. *)
Definition browser_no_context : Browser :=
  {| decode := fun _ => onload sample_image;
     getContext := fun _ => false;
     toBlob := fun _ _ => Some png_blob |}.

(** The canvas cannot be encoded. *)
Definition browser_encode_fails : Browser :=
  {| decode := fun _ => onload sample_image;
     getContext := fun _ => true;
     toBlob := fun _ _ => None |}.

(** The image never finishes loading. *)
Definition browser_hung : Browser :=
  {| decode := fun _ => hung;
     getContext := fun _ => true;
     toBlob := fun _ _ => Some png_blob |}.

(** A garment whose name ends in a high surrogate without its pair. *)
Definition odd_name : jsstring := lit "Top" ++ [55357%N].

Definition odd_top : WardrobeItem.t :=
  {| WardrobeItem.id := lit "top-3";
     WardrobeItem.name := odd_name;
     WardrobeItem.url := lit "https://example.org/top.png" |}.

Definition untyped_blob : Blob :=
  {| blob_type := lit ""; blob_bytes := [1]%N |}.

(** The blob comes back without a type. *)
Definition browser_untyped : Browser :=
  {| decode := fun _ => onload sample_image;
     getContext := fun _ => true;
     toBlob := fun _ _ => Some untyped_blob |}.

Definition shirt : WardrobeItem.t :=
  {| WardrobeItem.id := lit "shirt-1";
     WardrobeItem.name := lit "Shirt";
     WardrobeItem.url := lit "https://example.org/shirt.png" |}.

Definition jacket : WardrobeItem.t :=
  {| WardrobeItem.id := lit "jacket-2";
     WardrobeItem.name := lit "Jacket";
     WardrobeItem.url := lit "https://example.org/jacket.png" |}.

Definition idle_props : Props :=
  {| activeGarmentIds := [];
     isLoading := false;
     wardrobe := [shirt; jacket];
     savedLooks := [];
     displayImageUrl := None |}.

Definition busy_props : Props :=
  {| activeGarmentIds := [];
     isLoading := true;
     wardrobe := [shirt; jacket];
     savedLooks := [];
     displayImageUrl := None |}.

Definition wearing_shirt_props : Props :=
  {| activeGarmentIds := [lit "shirt-1"];
     isLoading := false;
     wardrobe := [shirt; jacket];
     savedLooks := [];
     displayImageUrl := Some (lit "blob:preview") |}.

Definition photo : File :=
  {| file_parts := [png_blob];
     file_name := lit "dress.png";
     file_type := lit "image/png" |}.

Definition notes : File :=
  {| file_parts := [{| blob_type := lit "text/plain"; blob_bytes := [104; 105]%N |}];
     file_name := lit "notes.txt";
     file_type := lit "text/plain" |}.

Definition sample_window : Window :=
  {| Date_now := 1700000000000;
     createObjectURL := fun f => lit "blob:" ++ file_name f |}.

(** A color sub-view open on [shirt] with Blue selected. *)
Definition picking_state : PanelState :=
  {| error := None;
     activeTab := garments;
     isSaveModalOpen := false;
     newLookName := lit "";
     selectedGarmentForColor := Some shirt;
     selectedColor := lit "Blue";
     pendingFile := Some photo |}.

Definition picking_system : System :=
  {| panel := picking_state; inflight := []; log := [] |}.

(** A system whose save modal is open with the given text in the field. *)
Definition naming_system (value : jsstring) : System :=
  dispatch_all [clickTab looks; clickSaveCurrentLook; inputLookName value]
    initialSystem.

(** The files [urlToFile] makes of the two garments in [browser_ok]. *)
Definition shirt_file : File :=
  {| file_parts := [png_blob];
     file_name := lit "Shirt";
     file_type := lit "image/png" |}.

Definition jacket_file : File :=
  {| file_parts := [png_blob];
     file_name := lit "Jacket";
     file_type := lit "image/png" |}.

(** ** Further render conditions and invariants *)

(** [selectedColor === color.name], which puts the ring on a swatch. *)
Definition swatch_highlighted (s : PanelState) (color : Swatch) : bool :=
  str_eqb (selectedColor s) (swatch_name color).

(** The pending file has a type, and carries the name of the candidate,
    as it is or as [new File] converted it. *)
Definition pending_coherent (s : PanelState) : Prop :=
  forall f, pendingFile s = Some f ->
    file_type f <> lit ""
    /\ forall i, selectedGarmentForColor s = Some i ->
         file_name f = WardrobeItem.name i
         \/ file_name f = toUSVString (WardrobeItem.name i).

(** The error cell holds null or one of the two messages of the source. *)
Definition error_known (s : PanelState) : Prop :=
  error s = None
  \/ error s = Some detailedError
  \/ error s = Some (lit "Please select an image file.").

(** What the parent can rely on in a call of one of its callbacks. *)
Definition call_sound (c : Call) : Prop :=
  match c with
  | onGarmentSelect f i color =>
      In color (map swatch_name COLORS)
      /\ (file_name f = WardrobeItem.name i
          \/ file_name f = toUSVString (WardrobeItem.name i))
      /\ file_type f <> lit ""
  | onSaveLook name =>
      name <> lit "" /\ trimStart name = name /\ trimEnd name = name
  | _ => True
  end.

Definition strong_invariant (sys : System) : Prop :=
  invariant sys
  /\ pending_coherent (panel sys)
  /\ error_known (panel sys)
  /\ Forall call_sound (log sys).

(** A garment whose image cannot be loaded. *)
Definition load_failure : JsError :=
  {| message :=
       lit "Could not load image from URL for canvas conversion. Error: [object Event]" |}.

(** A second page clock, one millisecond later. *)
Definition later_window : Window :=
  {| Date_now := 1700000000001;
     createObjectURL := fun f => lit "blob:" ++ file_name f |}.



(** The events of the tab bar, the save dialog and the looks grid, as
    opposed to those of the garment grid and the color sub-view. *)
Definition save_flow_event (e : Event) : bool :=
  match e with
  | clickTab _ | clickSaveCurrentLook | clickCloseSaveModal
  | inputLookName _ | submitSave | clickWear _ | clickDelete _ => true
  | clickGarment _ _ | acquired _ _ | changeFile _ _ | clickSwatch _
  | clickApply | clickCancelColor => false
  end.

(** * Properties *)

(** ** Image acquisition *)

Lemma load_message_not_context (ev : jsstring) :
  lit "Could not load image from URL for canvas conversion. Error: " ++ ev
  <> lit "Could not get canvas context.".
Proof.
  intro H. apply (f_equal (firstn 11)) in H. vm_compute in H. discriminate.
Qed.

Lemma load_message_not_encode (ev : jsstring) :
  lit "Could not load image from URL for canvas conversion. Error: " ++ ev
  <> lit "Canvas toBlob failed.".
Proof.
  intro H. apply (f_equal (firstn 2)) in H. vm_compute in H. discriminate.
Qed.

Lemma context_message_not_encode :
  lit "Could not get canvas context." <> lit "Canvas toBlob failed.".
Proof. vm_compute. discriminate. Qed.

(** The ways through the executor.  Once the image has fired its load or
    its error event, each ends in one call of [resolve] or [reject]; until
    then nothing is called. *)
Lemma urlToFile_cases (b : Browser) (url filename : jsstring) :
  (decode b url <> hung ->
   (exists file,
      settlements (urlToFile b url filename) = [resolve file]
      /\ promise_of (urlToFile b url filename) = Fulfilled file)
   \/ (exists e,
      settlements (urlToFile b url filename) = [reject e]
      /\ promise_of (urlToFile b url filename) = Rejected e))
  /\ (decode b url = hung ->
      settlements (urlToFile b url filename) = []
      /\ promise_of (urlToFile b url filename) = Pending)
  /\ (forall e, promise_of (urlToFile b url filename) = Rejected e <->
        (exists ev, decode b url = onerror ev /\
           e = {| message :=
                  lit "Could not load image from URL for canvas conversion. Error: "
                    ++ ev |})
        \/ (exists image, decode b url = onload image /\
              getContext b (sized_canvas image) = false /\
              e = {| message := lit "Could not get canvas context." |})
        \/ (exists image, decode b url = onload image /\
              getContext b (sized_canvas image) = true /\
              toBlob b (drawn (sized_canvas image) image 0 0) (lit "image/png")
                = None /\
              e = {| message := lit "Canvas toBlob failed." |})).
Proof.
  unfold urlToFile, image_onload, image_onerror.
  destruct (decode b url) as [image | ev |] eqn:Hdec.
  - split; [| split; [discriminate |]].
    + intros _.
      destruct (getContext b (sized_canvas image)); cbn [negb];
        [destruct (toBlob b (drawn (sized_canvas image) image 0 0)
                     (lit "image/png")) |];
        [left | right | right]; eexists; split; reflexivity.
    + destruct (getContext b (sized_canvas image)) eqn:Hctx; cbn [negb].
      * destruct (toBlob b (drawn (sized_canvas image) image 0 0)
                    (lit "image/png")) as [blob |] eqn:Hblob.
        -- intros e; split; [cbn; discriminate |].
           intros [(ev & H & _) | [(im & H & Hc & _) | (im & H & Hc & Hb & _)]];
             try discriminate; injection H as <-; congruence.
        -- intros e; split.
           ++ cbn; intros [= <-]. right; right. exists image; auto.
           ++ intros [(ev & H & _) | [(im & H & Hc & _) | (im & H & Hc & Hb & ->)]];
                try discriminate; [injection H as <-; congruence | reflexivity].
      * intros e; split.
        -- cbn; intros [= <-]. right; left. exists image; auto.
        -- intros [(ev & H & _) | [(im & H & Hc & ->) | (im & H & Hc & Hb & _)]];
             try discriminate; [reflexivity | injection H as <-; congruence].
  - split; [| split; [discriminate |]].
    + intros _. right; eexists; split; reflexivity.
    + intros e; split.
      * cbn; intros [= <-]. left. exists ev; auto.
      * intros [(ev' & H & ->) | [(im & H & _) | (im & H & _)]];
          try discriminate.
        injection H as <-. reflexivity.
  - split; [intros H; exfalso; apply H; reflexivity |].
    split; [intros _; split; reflexivity |].
    intros e; split; [cbn; discriminate |].
    intros [(ev & H & _) | [(im & H & _) | (im & H & _)]]; discriminate.
Qed.

(** Against C7 as stated: an image that fires neither its load nor its
    error event leaves the promise of [urlToFile] pending, neither resolved
    nor rejected. *)
Lemma urlToFile_hung_load_never_settles :
  promise_of (urlToFile browser_hung (WardrobeItem.url shirt)
                (WardrobeItem.name shirt)) = Pending
  /\ ~ ((exists file,
          promise_of (urlToFile browser_hung (WardrobeItem.url shirt)
                        (WardrobeItem.name shirt)) = Fulfilled file)
        \/ (exists e,
          promise_of (urlToFile browser_hung (WardrobeItem.url shirt)
                        (WardrobeItem.name shirt)) = Rejected e)).
Proof.
  split; [reflexivity |].
  intros [(file & H) | (e & H)]; discriminate H.
Qed.

(** C7, amended.  [urlToFile] rejects in three ways and no other: when the
    image fails to load, with the load message; when no 2d context is
    available, with the context message; when [toBlob] hands back no blob,
    with the encode message; the three messages are pairwise different.
    For every invocation whose image fires its load or its error event,
    exactly one of [resolve] and [reject] is called, exactly once: the
    promise is fulfilled with a file or rejected with one of these errors,
    never both.  An invocation whose image fires neither event calls
    neither, and its promise stays pending.  Each of the five outcomes
    occurs in some browser. *)
Theorem urlToFile_settles_once_when_load_ends
  (b : Browser) (url filename : jsstring) :
  (decode b url <> hung ->
   (exists file,
      settlements (urlToFile b url filename) = [resolve file]
      /\ promise_of (urlToFile b url filename) = Fulfilled file)
   \/ (exists e,
      settlements (urlToFile b url filename) = [reject e]
      /\ promise_of (urlToFile b url filename) = Rejected e))
  /\ (decode b url = hung ->
      settlements (urlToFile b url filename) = []
      /\ promise_of (urlToFile b url filename) = Pending)
  /\ (forall e, promise_of (urlToFile b url filename) = Rejected e <->
        (exists ev, decode b url = onerror ev /\
           e = {| message :=
                  lit "Could not load image from URL for canvas conversion. Error: "
                    ++ ev |})
        \/ (exists image, decode b url = onload image /\
              getContext b (sized_canvas image) = false /\
              e = {| message := lit "Could not get canvas context." |})
        \/ (exists image, decode b url = onload image /\
              getContext b (sized_canvas image) = true /\
              toBlob b (drawn (sized_canvas image) image 0 0) (lit "image/png")
                = None /\
              e = {| message := lit "Canvas toBlob failed." |}))
  /\ (forall ev,
        lit "Could not load image from URL for canvas conversion. Error: " ++ ev
          <> lit "Could not get canvas context."
        /\ lit "Could not load image from URL for canvas conversion. Error: " ++ ev
          <> lit "Canvas toBlob failed.")
  /\ lit "Could not get canvas context." <> lit "Canvas toBlob failed."
  /\ (exists file,
        promise_of (urlToFile browser_ok url filename) = Fulfilled file)
  /\ promise_of (urlToFile browser_unreadable url filename)
     = Rejected {| message :=
         lit "Could not load image from URL for canvas conversion. Error: [object Event]" |}
  /\ promise_of (urlToFile browser_no_context url filename)
     = Rejected {| message := lit "Could not get canvas context." |}
  /\ promise_of (urlToFile browser_encode_fails url filename)
     = Rejected {| message := lit "Canvas toBlob failed." |}
  /\ promise_of (urlToFile browser_hung url filename) = Pending.
Proof.
  destruct (urlToFile_cases b url filename) as (Honce & Hhung & Hrej).
  split; [exact Honce |]. split; [exact Hhung |]. split; [exact Hrej |].
  split; [intros ev; split;
          [apply load_message_not_context | apply load_message_not_encode] |].
  split; [apply context_message_not_encode |].
  split; [eexists; reflexivity |].
  repeat split; reflexivity.
Qed.

Lemma urlToFile_settles_once_when_load_ends_witness :
  decode browser_encode_fails (WardrobeItem.url shirt) <> hung
  /\ settlements (urlToFile browser_encode_fails (WardrobeItem.url shirt)
                    (WardrobeItem.name shirt))
     = [reject {| message := lit "Canvas toBlob failed." |}].
Proof.
  assert (Hend : decode browser_encode_fails (WardrobeItem.url shirt) <> hung)
    by discriminate.
  split; [exact Hend |].
  destruct (urlToFile_settles_once_when_load_ends browser_encode_fails
              (WardrobeItem.url shirt) (WardrobeItem.name shirt))
    as (Honce & _).
  destruct (Honce Hend) as [(file & _ & Hp) | (e & Hs & Hp)].
  - discriminate Hp.
  - rewrite Hs. injection Hp as <-. reflexivity.
Defined.

(** A well-formed string is its own USVString. *)
Lemma toUSVString_wellFormed (s : jsstring) :
  isWellFormed s = true -> toUSVString s = s.
Proof.
  assert (H : forall n s, (List.length s <= n)%nat ->
                isWellFormed s = true -> toUSVString s = s).
  { clear s. induction n as [| n IH]; intros [| c rest] Hlen Hwf;
      try reflexivity; cbn [List.length] in Hlen; [lia |].
    cbn [isWellFormed toUSVString] in *.
    destruct (isHighSurrogate c).
    - destruct rest as [| d rest']; [discriminate |].
      apply andb_true_iff in Hwf. destruct Hwf as (Hd & Hwf).
      rewrite Hd. rewrite (IH rest') by (cbn [List.length] in Hlen; lia || exact Hwf).
      reflexivity.
    - apply andb_true_iff in Hwf. destruct Hwf as (Hc & Hwf).
      apply negb_true_iff in Hc. rewrite Hc.
      rewrite (IH rest) by (lia || exact Hwf). reflexivity. }
  apply (H (List.length s)). lia.
Qed.

(** Against C6 as stated: with load, draw and encode all succeeding, the
    file made for a name that ends in a lone surrogate does not carry that
    name. *)
Lemma urlToFile_lone_surrogate_renamed :
  decode browser_ok (WardrobeItem.url odd_top) = onload sample_image
  /\ getContext browser_ok (sized_canvas sample_image) = true
  /\ toBlob browser_ok (drawn (sized_canvas sample_image) sample_image 0 0)
       (lit "image/png") = Some png_blob
  /\ exists file,
       promise_of (urlToFile browser_ok (WardrobeItem.url odd_top)
                     (WardrobeItem.name odd_top)) = Fulfilled file
       /\ file_name file = lit "Top" ++ [65533%N]
       /\ file_name file <> WardrobeItem.name odd_top.
Proof.
  repeat split; try reflexivity.
  eexists. split; [reflexivity |]. split; [reflexivity |].
  vm_compute. discriminate.
Qed.

(** C6, amended.  When load, draw and encode all succeed, the promise
    fulfils with a file that wraps the blob, carries the requested filename
    as a USVString (each lone surrogate replaced by U+FFFD), hence the
    requested filename itself when that is well formed, and has the blob's
    type, or image/png when the blob reports none; [toBlob] is only ever
    asked for image/png; and a garment click requests the file under the
    item's url and name, so the pending file is named after the item. *)
Theorem urlToFile_success_named_png
  (b : Browser) (url filename : jsstring) (image : Image) (blob : Blob) :
  decode b url = onload image ->
  getContext b (sized_canvas image) = true ->
  toBlob b (drawn (sized_canvas image) image 0 0) (lit "image/png") = Some blob ->
  (exists file,
     promise_of (urlToFile b url filename) = Fulfilled file
     /\ file_parts file = [blob]
     /\ file_name file = toUSVString filename
     /\ (isWellFormed filename = true -> file_name file = filename)
     /\ (blob_type blob = lit "" -> file_type file = lit "image/png")
     /\ (blob_type blob <> lit "" -> file_type file = blob_type blob)
     /\ (forall props item sys,
           garmentButton_disabled props item = false ->
           url = WardrobeItem.url item ->
           filename = WardrobeItem.name item ->
           pendingFile
             (panel (dispatch (acquired (List.length (inflight sys)) b)
                       (dispatch (clickGarment props item) sys)))
           = Some file
           /\ file_name file = toUSVString (WardrobeItem.name item)))
  /\ (forall b' url' filename' type,
        In (callToBlob type) (urlToFile b' url' filename') ->
        type = lit "image/png").
Proof.
  intros Hdec Hctx Hblob. split.
  - assert (Hp : promise_of (urlToFile b url filename)
                 = Fulfilled {| file_parts := [blob];
                                file_name := toUSVString filename;
                                file_type := or_else (blob_type blob)
                                               (lit "image/png") |}).
    { unfold urlToFile, image_onload. rewrite Hdec, Hctx, Hblob. reflexivity. }
    eexists. split; [exact Hp |]. cbn [file_parts file_name file_type].
    split; [reflexivity | split; [reflexivity | split; [| split; [| split]]]].
    + apply toUSVString_wellFormed.
    + intros ->. reflexivity.
    + intros Hne. destruct (blob_type blob);
        [exfalso; apply Hne; reflexivity | reflexivity].
    + intros props item sys H -> ->. split; [| reflexivity].
      unfold dispatch, handleGarmentClick.
      unfold garmentButton_disabled in H. rewrite H.
      cbn [run perform inflight panel log].
      rewrite nth_error_app2, Nat.sub_diag by lia.
      cbn [nth_error acq_url acq_filename acq_try]. rewrite Hp.
      reflexivity.
  - intros b' url' filename' type. unfold urlToFile, image_onload, image_onerror.
    destruct (decode b' url') as [im | ev |].
    + destruct (getContext b' (sized_canvas im)); cbn [negb].
      * destruct (toBlob b' _ _); cbn;
          intros [H | [H | [H | [H | [H | [H | [H | []]]]]]]];
          try discriminate; injection H as <-; reflexivity.
      * cbn. intros [H | [H | [H | [H | [H | []]]]]]; discriminate.
    + cbn. intros [H | [H | [H | []]]]; discriminate.
    + cbn. intros [H | [H | []]]; discriminate.
Qed.

(** The conversion in a browser where every step works, in one whose blob
    reports no type, and for a name with a lone surrogate. *)
Lemma urlToFile_success_named_png_witness :
  (decode browser_ok (WardrobeItem.url shirt) = onload sample_image
   /\ exists file,
        promise_of (urlToFile browser_ok (WardrobeItem.url shirt)
                      (WardrobeItem.name shirt)) = Fulfilled file
        /\ file_name file = lit "Shirt"
        /\ file_type file = lit "image/png")
  /\ (toBlob browser_untyped (drawn (sized_canvas sample_image) sample_image 0 0)
        (lit "image/png") = Some untyped_blob
      /\ exists file,
           promise_of (urlToFile browser_untyped (WardrobeItem.url jacket)
                         (WardrobeItem.name jacket)) = Fulfilled file
           /\ file_name file = lit "Jacket"
           /\ file_type file = lit "image/png")
  /\ (isWellFormed (WardrobeItem.name odd_top) = false
      /\ exists file,
           promise_of (urlToFile browser_ok (WardrobeItem.url odd_top)
                         (WardrobeItem.name odd_top)) = Fulfilled file
           /\ file_name file = lit "Top" ++ [65533%N]).
Proof.
  split; [| split]; (split; [reflexivity |]).
  - destruct (urlToFile_success_named_png browser_ok (WardrobeItem.url shirt)
                (WardrobeItem.name shirt) sample_image png_blob
                eq_refl eq_refl eq_refl)
      as [(file & Hp & _ & _ & Hn & _ & Ht & _) _].
    exists file. repeat split.
    + exact Hp.
    + apply Hn. reflexivity.
    + apply Ht. vm_compute. discriminate.
  - destruct (urlToFile_success_named_png browser_untyped
                (WardrobeItem.url jacket) (WardrobeItem.name jacket)
                sample_image untyped_blob eq_refl eq_refl eq_refl)
      as [(file & Hp & _ & _ & Hn & Ht & _) _].
    exists file. repeat split.
    + exact Hp.
    + apply Hn. reflexivity.
    + apply Ht. reflexivity.
  - destruct (urlToFile_success_named_png browser_ok
                (WardrobeItem.url odd_top) (WardrobeItem.name odd_top)
                sample_image png_blob eq_refl eq_refl eq_refl)
      as [(file & Hp & _ & Hn & _) _].
    exists file. split; [exact Hp | exact Hn].
Defined.

(** ** Strings *)

Lemma str_eqb_eq (a b : jsstring) : str_eqb a b = true <-> a = b.
Proof.
  revert b; induction a as [| x a IH]; intros [| y b]; cbn;
    try (split; [discriminate | congruence]); [tauto |].
  rewrite andb_true_iff, N.eqb_eq, IH. split.
  - intros [-> ->]; reflexivity.
  - intros [= -> ->]; auto.
Qed.

Lemma includes_In (l : list jsstring) (x : jsstring) :
  includes l x = true <-> In x l.
Proof.
  unfold includes. rewrite existsb_exists. split.
  - intros (y & Hy & E). apply str_eqb_eq in E. subst; assumption.
  - intros H. exists x. split; [assumption | apply str_eqb_eq; reflexivity].
Qed.

Lemma trimStart_nil_iff (s : jsstring) :
  trimStart s = [] <-> forallb isWhiteSpace s = true.
Proof.
  induction s as [| c s IH]; cbn; [tauto |].
  destruct (isWhiteSpace c); cbn; [exact IH |].
  split; discriminate.
Qed.

Lemma trimStart_head (s r : jsstring) (c : N) :
  trimStart s = c :: r -> isWhiteSpace c = false.
Proof.
  induction s as [| d s IH]; cbn; [discriminate |].
  destruct (isWhiteSpace d) eqn:E; [exact IH |].
  intros [= <- _]; exact E.
Qed.

Lemma forallb_rev {A} (f : A -> bool) (l : list A) :
  forallb f (rev l) = true <-> forallb f l = true.
Proof.
  rewrite !forallb_forall. split; intros H x Hx; apply H.
  - apply in_rev; rewrite rev_involutive; exact Hx.
  - apply in_rev; exact Hx.
Qed.

(** [trim] leaves nothing exactly when the string is whitespace only. *)
Lemma trim_nil_iff (s : jsstring) :
  trim s = [] <-> forallb isWhiteSpace s = true.
Proof.
  unfold trim, trimEnd. split.
  - intros H. apply (f_equal (@rev N)) in H. rewrite rev_involutive in H.
    cbn in H. apply trimStart_nil_iff, forallb_rev in H.
    destruct (trimStart s) as [| c r] eqn:E.
    + apply trimStart_nil_iff; exact E.
    + apply trimStart_head in E. rewrite rev_involutive in H.
      cbn [forallb] in H. rewrite E in H. discriminate.
  - intros H. apply trimStart_nil_iff in H. rewrite H. reflexivity.
Qed.

Lemma trimStart_fixed (s : jsstring) :
  (forall c r, s = c :: r -> isWhiteSpace c = false) -> trimStart s = s.
Proof.
  destruct s as [| c r]; [reflexivity |]. intros H.
  cbn [trimStart]. rewrite (H c r eq_refl). reflexivity.
Qed.

Lemma trimStart_idem (s : jsstring) : trimStart (trimStart s) = trimStart s.
Proof.
  apply trimStart_fixed. intros c r H. eapply trimStart_head; eassumption.
Qed.

Lemma trimStart_snoc (l : jsstring) (c : N) :
  isWhiteSpace c = false -> trimStart (l ++ [c]) = trimStart l ++ [c].
Proof.
  intros Hc. induction l as [| d l IH]; cbn [app trimStart].
  - rewrite Hc. reflexivity.
  - destruct (isWhiteSpace d); [exact IH | reflexivity].
Qed.

(** The shape of a trimmed string: empty, or between two characters that
    are not whitespace (possibly the same one). *)
Lemma trim_shape (s : jsstring) :
  trim s = []
  \/ exists c mid, isWhiteSpace c = false
       /\ trim s = c :: rev (trimStart mid).
Proof.
  unfold trim, trimEnd. destruct (trimStart s) as [| c r] eqn:E.
  - left; reflexivity.
  - right. pose proof (trimStart_head s r c E) as Hc.
    exists c, (rev r). split; [exact Hc |].
    cbn [rev]. rewrite (trimStart_snoc (rev r) c Hc), rev_app_distr.
    reflexivity.
Qed.

Lemma trimStart_trim (s : jsstring) : trimStart (trim s) = trim s.
Proof.
  destruct (trim_shape s) as [-> | (c & mid & Hc & ->)]; [reflexivity |].
  cbn [trimStart]. rewrite Hc. reflexivity.
Qed.

Lemma trimEnd_trim (s : jsstring) : trimEnd (trim s) = trim s.
Proof.
  unfold trim at 1. unfold trimEnd at 1 2. rewrite rev_involutive.
  rewrite trimStart_idem. reflexivity.
Qed.

Lemma trimStart_split (s : jsstring) :
  exists before,
    s = before ++ trimStart s /\ forallb isWhiteSpace before = true.
Proof.
  induction s as [| c s (before & Hs & Hb)]; [exists []; auto |].
  cbn [trimStart]. destruct (isWhiteSpace c) eqn:Hc.
  - exists (c :: before). cbn [app forallb]. rewrite Hc, Hb, <- Hs. auto.
  - exists []. auto.
Qed.

(** [trim] removes a run of whitespace at each end and nothing else. *)
Lemma trim_split (s : jsstring) :
  exists before after,
    s = before ++ trim s ++ after
    /\ forallb isWhiteSpace before = true
    /\ forallb isWhiteSpace after = true.
Proof.
  destruct (trimStart_split s) as (before & Hs & Hb).
  destruct (trimStart_split (rev (trimStart s))) as (q & Hq & Hqb).
  exists before, (rev q). split; [| split; [exact Hb |]].
  - unfold trim, trimEnd. rewrite <- rev_app_distr, <- Hq, rev_involutive.
    exact Hs.
  - apply forallb_rev. exact Hqb.
Qed.

(** A trimmed string neither starts nor ends with whitespace. *)
Lemma trim_ends (s : jsstring) :
  (forall c rest, trim s = c :: rest -> isWhiteSpace c = false)
  /\ (forall front c, trim s = front ++ [c] -> isWhiteSpace c = false).
Proof.
  split.
  - intros c rest H. pose proof (trimStart_trim s) as Hs. rewrite H in Hs.
    eapply trimStart_head; exact Hs.
  - intros front c H. pose proof (trimEnd_trim s) as He. rewrite H in He.
    unfold trimEnd in He. apply (f_equal (@rev N)) in He.
    rewrite rev_involutive, rev_app_distr in He. cbn [rev app] in He.
    eapply trimStart_head; exact He.
Qed.

(** ** Running handlers *)

Lemma perform_nil (sys : System) : perform [] sys = sys.
Proof. destruct sys; unfold perform; cbn. rewrite app_nil_r. reflexivity. Qed.

Lemma nth_error_snoc {A} (l : list A) (x : A) :
  nth_error (l ++ [x]) (List.length l) = Some x.
Proof. rewrite nth_error_app2, Nat.sub_diag by lia. reflexivity. Qed.

Lemma remove_nth_snoc {A} (l : list A) (x : A) :
  remove_nth (List.length l) (l ++ [x]) = l.
Proof.
  unfold remove_nth.
  rewrite firstn_app, Nat.sub_diag, firstn_all, skipn_all2;
    [cbn; rewrite !app_nil_r; reflexivity |].
  rewrite length_app; cbn; lia.
Qed.

(** ** Color selection *)

(** C8. Cancel calls nothing outside the component, starts no acquisition,
    and clears the pending file and the candidate item, which closes the
    color sub-view; every other cell keeps its value. *)
Theorem cancel_discards_pending_selection (sys : System) :
  effects handleCancelColorSelection = []
  /\ log (dispatch clickCancelColor sys) = log sys
  /\ inflight (dispatch clickCancelColor sys) = inflight sys
  /\ panel (dispatch clickCancelColor sys)
     = {| error := error (panel sys);
          activeTab := activeTab (panel sys);
          isSaveModalOpen := isSaveModalOpen (panel sys);
          newLookName := newLookName (panel sys);
          selectedGarmentForColor := None;
          selectedColor := selectedColor (panel sys);
          pendingFile := None |}
  /\ colorModal_shown (panel (dispatch clickCancelColor sys)) = false.
Proof.
  cbn. rewrite app_nil_r. repeat split; reflexivity.
Qed.

(** ** Garment clicks *)

(** C3. While [isLoading] holds, or for an item whose id is among
    [activeGarmentIds], the garment button is disabled and its handler
    returns at once: the component (state, suspended handlers, calls made)
    is exactly what it was. *)
Theorem guarded_garment_click_is_noop
  (props : Props) (item : WardrobeItem.t) (sys : System) :
  isLoading props = true
  \/ In (WardrobeItem.id item) (activeGarmentIds props) ->
  garmentButton_disabled props item = true
  /\ handleGarmentClick props item = Return []
  /\ dispatch (clickGarment props item) sys = sys.
Proof.
  intros H.
  assert (G : isLoading props
              || includes (activeGarmentIds props) (WardrobeItem.id item)
              = true).
  { apply orb_true_iff. destruct H as [H | H]; [left; exact H |].
    right; apply includes_In; exact H. }
  unfold garmentButton_disabled, dispatch, handleGarmentClick.
  rewrite G. cbn [run]. rewrite perform_nil. repeat split; reflexivity.
Qed.

Lemma guarded_garment_click_is_noop_witness :
  In (WardrobeItem.id shirt) (activeGarmentIds wearing_shirt_props)
  /\ dispatch (clickGarment wearing_shirt_props shirt) picking_system
     = picking_system
  /\ dispatch (clickGarment busy_props jacket) picking_system = picking_system.
Proof.
  split; [left; reflexivity |]. split.
  - apply (guarded_garment_click_is_noop wearing_shirt_props shirt
             picking_system). right; left; reflexivity.
  - apply (guarded_garment_click_is_noop busy_props jacket picking_system).
    left; reflexivity.
Defined.

(** ** The invariant *)

Lemma original_is_swatch : In (lit "Original") (map swatch_name COLORS).
Proof. left; reflexivity. Qed.

Lemma wf_acquisition_inv (a : Acquisition) :
  wf_acquisition a ->
  exists item,
    acq_url a = WardrobeItem.url item
    /\ acq_filename a = WardrobeItem.name item
    /\ (forall file,
          acq_try a file
          = [setPendingFile (Some file);
             setSelectedGarmentForColor (Some item);
             setSelectedColor (lit "Original")])
    /\ (forall err,
          exists msg,
            acq_catch a err
            = [setError (Some detailedError); console_error msg err]).
Proof.
  intros (props & item & H). exists item. unfold handleGarmentClick in H.
  destruct (isLoading props || _); cbn in H; [discriminate |].
  injection H as <-. cbn. repeat split; try reflexivity.
  intros err. eexists. reflexivity.
Qed.

Lemma Forall_remove_nth {A} (P : A -> Prop) (n : nat) (l : list A) :
  Forall P l -> Forall P (remove_nth n l).
Proof.
  intros H. revert n. induction H as [| x l Hx Hl IH]; intros [| n].
  - constructor.
  - constructor.
  - exact Hl.
  - change (remove_nth (S n) (x :: l)) with (x :: remove_nth n l).
    constructor; [exact Hx | apply IH].
Qed.

Lemma initial_invariant : invariant initialSystem.
Proof.
  repeat split; cbn; auto.
Qed.

Lemma dispatch_invariant (e : Event) (sys : System) :
  invariant sys -> invariant (dispatch e sys).
Proof.
  intros (Hp & Hc & Hw). unfold invariant, paired, color_is_swatch in *.
  destruct e as [props item | n b | w files | n | | | tab | | | value | | look | look];
    cbn [dispatch].
  - unfold handleGarmentClick.
    destruct (isLoading props || _) eqn:G; cbn [run].
    + rewrite perform_nil. auto.
    + cbn. repeat split; try tauto.
      apply Forall_app; split; [assumption |]. constructor; [| constructor].
      exists props, item. unfold handleGarmentClick. rewrite G. reflexivity.
  - destruct (nth_error (inflight sys) n) as [a |] eqn:Hn; [| auto].
    assert (Ha : wf_acquisition a).
    { apply (proj1 (Forall_forall _ _) Hw). eapply nth_error_In; eassumption. }
    destruct (wf_acquisition_inv a Ha) as (item & _ & _ & Htry & Hcatch).
    destruct (promise_of _) as [| file | err]; [auto | |].
    + rewrite Htry. cbn. repeat split; try discriminate.
      * apply original_is_swatch.
      * apply Forall_remove_nth; assumption.
    + destruct (Hcatch err) as (msg & ->). cbn. repeat split; try tauto.
      apply Forall_remove_nth; assumption.
  - unfold handleFileChange. destruct files as [[| file rest] |];
      try (rewrite perform_nil; auto).
    destruct (startsWith _ _); cbn.
    + repeat split; try discriminate; [apply original_is_swatch | assumption].
    + repeat split; tauto.
  - destruct (nth_error COLORS n) as [color |] eqn:Hn; [| auto].
    unfold perform; cbn [panel inflight].
    split; [cbn; tauto | split; [| assumption]].
    cbn [apply_calls fold_left apply_call selectedColor].
    apply in_map. eapply nth_error_In; eassumption.
  - unfold handleApplyGarment.
    destruct (pendingFile (panel sys)) as [f |] eqn:E1;
      destruct (selectedGarmentForColor (panel sys)) as [i |] eqn:E2;
      try (rewrite perform_nil, E1, E2; auto; fail).
    cbn. repeat split; auto.
  - cbn. repeat split; auto.
  - cbn. repeat split; tauto.
  - cbn. repeat split; tauto.
  - cbn. repeat split; tauto.
  - cbn. repeat split; tauto.
  - unfold handleSaveSubmit. destruct (truthy _); cbn; repeat split; tauto.
  - cbn. repeat split; tauto.
  - cbn. repeat split; tauto.
Qed.

Lemma dispatch_all_invariant (events : list Event) (sys : System) :
  invariant sys -> invariant (dispatch_all events sys).
Proof.
  revert sys. induction events as [| e events IH]; intros sys H; cbn.
  - exact H.
  - apply IH, dispatch_invariant, H.
Qed.

Lemma reachable_invariant (events : list Event) :
  invariant (dispatch_all events initialSystem).
Proof. apply dispatch_all_invariant, initial_invariant. Qed.

(** What one event can do to the state cells, for a component whose
    suspended handlers are garment clicks. *)
Lemma dispatch_panel_cases (e : Event) (sys : System) :
  Forall wf_acquisition (inflight sys) ->
  panel (dispatch e sys) = panel sys
  \/ (exists props item,
        e = clickGarment props item
        /\ garmentButton_disabled props item = false
        /\ panel (dispatch e sys) = apply_call (panel sys) (setError None))
  \/ (exists file item,
        panel (dispatch e sys)
        = apply_calls [setPendingFile (Some file);
                       setSelectedGarmentForColor (Some item);
                       setSelectedColor (lit "Original")] (panel sys))
  \/ (exists msg,
        msg <> [] /\
        panel (dispatch e sys) = apply_call (panel sys) (setError (Some msg)))
  \/ (exists color,
        In color COLORS /\
        panel (dispatch e sys)
        = apply_call (panel sys) (setSelectedColor (swatch_name color)))
  \/ panel (dispatch e sys)
     = apply_calls [setPendingFile None; setSelectedGarmentForColor None;
                    setSelectedColor (lit "Original")] (panel sys)
  \/ panel (dispatch e sys)
     = apply_calls [setPendingFile None; setSelectedGarmentForColor None]
         (panel sys)
  \/ (exists tab,
        panel (dispatch e sys) = apply_call (panel sys) (setActiveTab tab))
  \/ (exists v,
        panel (dispatch e sys) = apply_call (panel sys) (setIsSaveModalOpen v))
  \/ (exists v,
        panel (dispatch e sys) = apply_call (panel sys) (setNewLookName v))
  \/ panel (dispatch e sys)
     = apply_calls [setNewLookName (lit ""); setIsSaveModalOpen false;
                    setActiveTab looks] (panel sys).
Proof.
  intros Hw.
  destruct e as [props item | n b | w files | n | | | tab | | | value | | look | look];
    cbn [dispatch].
  - unfold handleGarmentClick.
    destruct (isLoading props || _) eqn:G; cbn [run].
    + rewrite perform_nil. auto.
    + right; left. exists props, item. auto.
  - destruct (nth_error (inflight sys) n) as [a |] eqn:Hn; [| auto].
    assert (Ha : wf_acquisition a).
    { apply (proj1 (Forall_forall _ _) Hw). eapply nth_error_In; eassumption. }
    destruct (wf_acquisition_inv a Ha) as (item & _ & _ & Htry & Hcatch).
    destruct (promise_of _) as [| file | err]; [auto | |].
    + rewrite Htry. right; right; left. exists file, item. reflexivity.
    + destruct (Hcatch err) as (msg & ->). do 3 right; left.
      exists detailedError. split; [vm_compute; discriminate | reflexivity].
  - unfold handleFileChange. destruct files as [[| file rest] |];
      try (rewrite perform_nil; auto).
    destruct (startsWith _ _); cbn [negb].
    + right; right; left. eexists; eexists; reflexivity.
    + do 3 right; left. eexists.
      split; [| reflexivity]. vm_compute; discriminate.
  - destruct (nth_error COLORS n) as [color |] eqn:Hn; [| auto].
    do 4 right; left. exists color. split; [| reflexivity].
    eapply nth_error_In; eassumption.
  - unfold handleApplyGarment.
    destruct (pendingFile (panel sys)) as [f |];
      destruct (selectedGarmentForColor (panel sys)) as [i |];
      try (rewrite perform_nil; auto; fail).
    do 5 right; left. reflexivity.
  - do 6 right; left. reflexivity.
  - do 7 right; left. exists tab; reflexivity.
  - do 8 right; left. exists true; reflexivity.
  - do 8 right; left. exists false; reflexivity.
  - do 9 right; left. exists value; reflexivity.
  - unfold handleSaveSubmit. destruct (truthy _).
    + do 10 right. reflexivity.
    + left. reflexivity.
  - left; reflexivity.
  - left; reflexivity.
Qed.

(** Whenever an event opens the color sub-view, the color is Original. *)
Lemma entry_resets_color (e : Event) (sys : System) :
  Forall wf_acquisition (inflight sys) ->
  colorModal_shown (panel sys) = false ->
  colorModal_shown (panel (dispatch e sys)) = true ->
  selectedColor (panel (dispatch e sys)) = lit "Original".
Proof.
  intros Hw Hclosed.
  destruct (dispatch_panel_cases e sys Hw)
    as [-> | [(? & ? & _ & _ & ->) | [(? & ? & ->) | [(? & _ & ->)
       | [(? & _ & ->) | [-> | [-> | [(? & ->) | [(? & ->) | [(? & ->) | ->]]]]]]]]]];
    unfold colorModal_shown in *; cbn; intros Hopen;
    try reflexivity; congruence.
Qed.

(** An event that removes a displayed error is an enabled garment click. *)
Lemma error_removed_by_click (e : Event) (sys : System) :
  Forall wf_acquisition (inflight sys) ->
  error (panel sys) <> None ->
  error (panel (dispatch e sys)) = None ->
  exists props item,
    e = clickGarment props item /\ garmentButton_disabled props item = false.
Proof.
  intros Hw Hset.
  destruct (dispatch_panel_cases e sys Hw)
    as [-> | [(props & item & -> & G & _) | [(? & ? & ->) | [(? & _ & ->)
       | [(? & _ & ->) | [-> | [-> | [(? & ->) | [(? & ->) | [(? & ->) | ->]]]]]]]]]];
    cbn; intros Hnone; try congruence.
  exists props, item. auto.
Qed.

(** ** Color selection: Confirm *)

(** C1. In a color-picking state with pending file [f], candidate [i] and
    selected color [c], Confirm calls [onGarmentSelect f i c] and nothing
    else outside the component, starts no acquisition, and leaves a state
    with no pending file, no candidate (so the color sub-view is gone) and
    the color back to Original, every other cell untouched.  In a state the
    component can reach, [c] is the name of one of the twelve swatches, and
    it is Original right after any event that opened the sub-view. *)
Theorem confirm_applies_pending_selection
  (sys : System) (f : File) (i : WardrobeItem.t) (c : jsstring) :
  pendingFile (panel sys) = Some f ->
  selectedGarmentForColor (panel sys) = Some i ->
  selectedColor (panel sys) = c ->
  effects (handleApplyGarment (panel sys)) = [onGarmentSelect f i c]
  /\ log (dispatch clickApply sys) = log sys ++ [onGarmentSelect f i c]
  /\ inflight (dispatch clickApply sys) = inflight sys
  /\ panel (dispatch clickApply sys)
     = {| error := error (panel sys);
          activeTab := activeTab (panel sys);
          isSaveModalOpen := isSaveModalOpen (panel sys);
          newLookName := newLookName (panel sys);
          selectedGarmentForColor := None;
          selectedColor := lit "Original";
          pendingFile := None |}
  /\ colorModal_shown (panel (dispatch clickApply sys)) = false
  /\ List.length COLORS = 12
  /\ (forall events,
        sys = dispatch_all events initialSystem ->
        In c (map swatch_name COLORS))
  /\ (forall events e,
        colorModal_shown (panel (dispatch_all events initialSystem)) = false ->
        colorModal_shown
          (panel (dispatch e (dispatch_all events initialSystem))) = true ->
        selectedColor (panel (dispatch e (dispatch_all events initialSystem)))
        = lit "Original").
Proof.
  intros Hf Hi Hc. unfold dispatch, handleApplyGarment.
  rewrite Hf, Hi, Hc.
  do 6 (split; [reflexivity |]). split.
  - intros events ->. subst c. apply (reachable_invariant events).
  - intros events e. apply entry_resets_color.
    apply (reachable_invariant events).
Qed.

Lemma confirm_applies_pending_selection_witness :
  pendingFile (panel picking_system) = Some photo
  /\ log (dispatch clickApply picking_system)
     = [onGarmentSelect photo shirt (lit "Blue")]
  /\ panel (dispatch clickApply picking_system) = initialState.
Proof.
  split; [reflexivity |].
  destruct (confirm_applies_pending_selection picking_system photo shirt
              (lit "Blue") eq_refl eq_refl eq_refl)
    as (_ & Hlog & _ & Hpanel & _).
  split; [exact Hlog | exact Hpanel].
Defined.

(** ** The pending selection *)

(** C2. After any sequence of events the color sub-view is rendered exactly
    when a candidate item is set, and the pending file is set exactly when
    the candidate item is; the state has one cell for each component of the
    pending selection, and both Confirm and Cancel leave the file and the
    item cleared. *)
Theorem pending_selection_paired (events : list Event) :
  (colorModal_shown (panel (dispatch_all events initialSystem)) = true
   <-> selectedGarmentForColor (panel (dispatch_all events initialSystem))
       <> None)
  /\ (pendingFile (panel (dispatch_all events initialSystem)) <> None
      <-> selectedGarmentForColor (panel (dispatch_all events initialSystem))
          <> None)
  /\ pendingFile
       (panel (dispatch clickApply (dispatch_all events initialSystem))) = None
  /\ selectedGarmentForColor
       (panel (dispatch clickApply (dispatch_all events initialSystem))) = None
  /\ pendingFile
       (panel (dispatch clickCancelColor (dispatch_all events initialSystem)))
     = None
  /\ selectedGarmentForColor
       (panel (dispatch clickCancelColor (dispatch_all events initialSystem)))
     = None.
Proof.
  pose proof (reachable_invariant events) as Hinv.
  pose proof (dispatch_invariant clickApply _ Hinv) as (Hafter & _ & _).
  destruct Hinv as (Hpair & _ & _).
  set (sys := dispatch_all events initialSystem) in *.
  unfold paired in *. split; [| split; [| split; [| split]]].
  - unfold colorModal_shown.
    destruct (selectedGarmentForColor (panel sys)); split; congruence.
  - tauto.
  - cbn [dispatch] in *. unfold handleApplyGarment in *.
    destruct (pendingFile (panel sys)) as [f |] eqn:Ef;
      destruct (selectedGarmentForColor (panel sys)) as [i |] eqn:Ei;
      try rewrite perform_nil; try reflexivity; try assumption.
    exfalso. assert (Some f = None) by (apply Hpair; reflexivity). discriminate.
  - cbn [dispatch] in *. unfold handleApplyGarment in *.
    destruct (pendingFile (panel sys)) as [f |] eqn:Ef;
      destruct (selectedGarmentForColor (panel sys)) as [i |] eqn:Ei;
      try rewrite perform_nil; try reflexivity; try assumption.
    exfalso. assert (Some i = None) by (apply Hpair; reflexivity). discriminate.
  - split; reflexivity.
Qed.

(** ** The save-look form *)

(** C4. A name that trims to the empty string, which is the case exactly
    for a name made of whitespace only, disables the Save button and a
    submission changes no state cell and calls no callback prop; a name
    that trims to something non-empty enables the button, and a submission
    calls [onSaveLook] once, with the trimmed name, empties the field,
    closes the modal and selects the looks tab.  The trimmed name is the
    entered name without the whitespace it starts and ends with: the entered
    name is a run of whitespace, then the trimmed name, then a run of
    whitespace, and the trimmed name neither starts nor ends with
    whitespace. *)
Theorem save_submit_trims_name (sys : System) :
  (trim (newLookName (panel sys)) = lit ""
   <-> forallb isWhiteSpace (newLookName (panel sys)) = true)
  /\ (trim (newLookName (panel sys)) = lit "" ->
      saveSubmit_disabled (panel sys) = true
      /\ callbacks (handleSaveSubmit (panel sys)) = []
      /\ log (dispatch submitSave sys) = log sys ++ [preventDefault]
      /\ panel (dispatch submitSave sys) = panel sys
      /\ inflight (dispatch submitSave sys) = inflight sys)
  /\ (trim (newLookName (panel sys)) <> lit "" ->
      saveSubmit_disabled (panel sys) = false
      /\ callbacks (handleSaveSubmit (panel sys))
         = [onSaveLook (trim (newLookName (panel sys)))]
      /\ log (dispatch submitSave sys)
         = log sys ++ [preventDefault;
                       onSaveLook (trim (newLookName (panel sys)))]
      /\ panel (dispatch submitSave sys)
         = {| error := error (panel sys);
              activeTab := looks;
              isSaveModalOpen := false;
              newLookName := lit "";
              selectedGarmentForColor := selectedGarmentForColor (panel sys);
              selectedColor := selectedColor (panel sys);
              pendingFile := pendingFile (panel sys) |}
      /\ inflight (dispatch submitSave sys) = inflight sys)
  /\ (exists before after,
        newLookName (panel sys)
        = before ++ trim (newLookName (panel sys)) ++ after
        /\ forallb isWhiteSpace before = true
        /\ forallb isWhiteSpace after = true)
  /\ (forall c rest,
        trim (newLookName (panel sys)) = c :: rest -> isWhiteSpace c = false)
  /\ (forall front c,
        trim (newLookName (panel sys)) = front ++ [c] ->
        isWhiteSpace c = false).
Proof.
  split; [apply trim_nil_iff |].
  split; [| split; [| split; [apply trim_split | apply trim_ends]]];
    unfold saveSubmit_disabled, dispatch, handleSaveSubmit; intros H.
  - cbn in H. rewrite H. cbn. destruct (panel sys); repeat split; reflexivity.
  - destruct (trim (newLookName (panel sys))) as [| ch rest] eqn:E.
    + exfalso; apply H; reflexivity.
    + cbn. repeat split; reflexivity.
Qed.

Lemma save_submit_trims_name_witness :
  (trim (lit "Summer Vibes") <> lit ""
   /\ log (dispatch submitSave (naming_system (lit "Summer Vibes")))
      = [preventDefault; onSaveLook (lit "Summer Vibes")]
   /\ activeTab (panel (dispatch submitSave (naming_system (lit "Summer Vibes"))))
      = looks)
  /\ (trim (lit "   ") = lit ""
      /\ panel (dispatch submitSave (naming_system (lit "   ")))
         = panel (naming_system (lit "   "))
      /\ isSaveModalOpen (panel (dispatch submitSave (naming_system (lit "   "))))
         = true)
  /\ (trim (lit "  Summer Vibes ") <> lit ""
      /\ log (dispatch submitSave (naming_system (lit "  Summer Vibes ")))
         = [preventDefault; onSaveLook (lit "Summer Vibes")]
      /\ newLookName
           (panel (dispatch submitSave (naming_system (lit "  Summer Vibes "))))
         = lit "").
Proof.
  split; [| split].
  - assert (Hne : trim (newLookName (panel (naming_system (lit "Summer Vibes"))))
                  <> lit "") by (vm_compute; discriminate).
    destruct (save_submit_trims_name (naming_system (lit "Summer Vibes")))
      as (_ & _ & Hok & _).
    destruct (Hok Hne) as (_ & _ & Hlog & Hpanel & _).
    split; [vm_compute; discriminate |]. split.
    + exact Hlog.
    + rewrite Hpanel. reflexivity.
  - destruct (save_submit_trims_name (naming_system (lit "   ")))
      as (_ & Hblank & _).
    destruct (Hblank eq_refl) as (_ & _ & _ & Hpanel & _).
    split; [reflexivity |]. split.
    + exact Hpanel.
    + rewrite Hpanel. reflexivity.
  - assert (Hne : trim (newLookName
                          (panel (naming_system (lit "  Summer Vibes "))))
                  <> lit "") by (vm_compute; discriminate).
    destruct (save_submit_trims_name (naming_system (lit "  Summer Vibes ")))
      as (_ & _ & Hok & _).
    destruct (Hok Hne) as (_ & _ & Hlog & Hpanel & _).
    split; [vm_compute; discriminate |]. split.
    + exact Hlog.
    + rewrite Hpanel. reflexivity.
Defined.

(** ** Custom upload *)

(** C5. For a chosen file whose type does not start with image/, the
    handler only sets the error to the validation message, which is then
    rendered: the pending file, the candidate item and the color keep their
    values, nothing is called outside the component and no acquisition is
    started.  For a chosen file whose type starts with image/, the candidate
    becomes an item with id custom-<Date.now()>, the name of the file and
    its object URL, the file itself becomes the pending file, the color is
    Original and the color sub-view is rendered; again nothing is called and
    no acquisition is started. *)
Theorem custom_upload_validates_type
  (w : Window) (file : File) (rest : list File) (sys : System) :
  (startsWith (file_type file) (lit "image/") = false ->
   error (panel (dispatch (changeFile w (Some (file :: rest))) sys))
   = Some (lit "Please select an image file.")
   /\ errorMessage_shown
        (panel (dispatch (changeFile w (Some (file :: rest))) sys)) = true
   /\ pending_selection (dispatch (changeFile w (Some (file :: rest))) sys)
      = pending_selection sys
   /\ log (dispatch (changeFile w (Some (file :: rest))) sys) = log sys
   /\ inflight (dispatch (changeFile w (Some (file :: rest))) sys)
      = inflight sys)
  /\ (startsWith (file_type file) (lit "image/") = true ->
      panel (dispatch (changeFile w (Some (file :: rest))) sys)
      = {| error := error (panel sys);
           activeTab := activeTab (panel sys);
           isSaveModalOpen := isSaveModalOpen (panel sys);
           newLookName := newLookName (panel sys);
           selectedGarmentForColor :=
             Some {| WardrobeItem.id :=
                       lit "custom-" ++ numberToString (Date_now w);
                     WardrobeItem.name := file_name file;
                     WardrobeItem.url := createObjectURL w file |};
           selectedColor := lit "Original";
           pendingFile := Some file |}
      /\ colorModal_shown
           (panel (dispatch (changeFile w (Some (file :: rest))) sys)) = true
      /\ log (dispatch (changeFile w (Some (file :: rest))) sys) = log sys
      /\ inflight (dispatch (changeFile w (Some (file :: rest))) sys)
         = inflight sys).
Proof.
  unfold dispatch, handleFileChange, pending_selection.
  split; intros ->; cbn; rewrite app_nil_r; repeat split; reflexivity.
Qed.

Lemma custom_upload_validates_type_witness :
  (startsWith (file_type notes) (lit "image/") = false
   /\ error (panel (dispatch (changeFile sample_window (Some [notes]))
                      initialSystem))
      = Some (lit "Please select an image file.")
   /\ pending_selection (dispatch (changeFile sample_window (Some [notes]))
                           initialSystem)
      = (None, None, lit "Original"))
  /\ (startsWith (file_type photo) (lit "image/") = true
      /\ pending_selection (dispatch (changeFile sample_window (Some [photo]))
                              initialSystem)
         = (Some photo,
            Some {| WardrobeItem.id := lit "custom-1700000000000";
                    WardrobeItem.name := lit "dress.png";
                    WardrobeItem.url := lit "blob:dress.png" |},
            lit "Original")).
Proof.
  destruct (custom_upload_validates_type sample_window notes [] initialSystem)
    as (Hbad & _).
  destruct (custom_upload_validates_type sample_window photo [] initialSystem)
    as (_ & Hgood).
  split.
  - destruct (Hbad eq_refl) as (He & _ & Hp & _).
    split; [reflexivity |]. split; [exact He | exact Hp].
  - destruct (Hgood eq_refl) as (Hpanel & _).
    split; [reflexivity |].
    unfold pending_selection. rewrite Hpanel. reflexivity.
Defined.

(** ** Concurrent acquisitions *)

Lemma click_enabled (props : Props) (item : WardrobeItem.t) (sys : System) :
  garmentButton_disabled props item = false ->
  dispatch (clickGarment props item) sys
  = {| panel := apply_call (panel sys) (setError None);
       inflight := inflight sys ++
         match awaited (handleGarmentClick props item) with
         | Some a => [a]
         | None => []
         end;
       log := log sys |}.
Proof.
  unfold garmentButton_disabled, dispatch, handleGarmentClick. intros ->.
  cbn. rewrite app_nil_r. reflexivity.
Qed.

(** The settlement of a garment click's promise with a file writes that
    click's pending selection, whatever the state was. *)
Lemma acquired_overwrites
  (props : Props) (item : WardrobeItem.t) (b : Browser) (file : File)
  (n : nat) (sys : System) :
  garmentButton_disabled props item = false ->
  nth_error (inflight sys) n = awaited (handleGarmentClick props item) ->
  promise_of (urlToFile b (WardrobeItem.url item) (WardrobeItem.name item))
  = Fulfilled file ->
  pending_selection (dispatch (acquired n b) sys)
  = (Some file, Some item, lit "Original")
  /\ inflight (dispatch (acquired n b) sys) = remove_nth n (inflight sys).
Proof.
  unfold garmentButton_disabled, handleGarmentClick. intros -> Hn Hp.
  cbn [awaited] in Hn. unfold dispatch. rewrite Hn.
  cbn [acq_url acq_filename acq_try]. rewrite Hp. split; reflexivity.
Qed.

Lemma nth_error_snoc2_fst {A} (l : list A) (x y : A) :
  nth_error (l ++ [x; y]) (List.length l) = Some x.
Proof. induction l as [| z l IH]; [reflexivity | exact IH]. Qed.

Lemma nth_error_snoc2_snd {A} (l : list A) (x y : A) :
  nth_error (l ++ [x; y]) (S (List.length l)) = Some y.
Proof. induction l as [| z l IH]; [reflexivity | exact IH]. Qed.

Lemma remove_nth_snoc2_fst {A} (l : list A) (x y : A) :
  remove_nth (List.length l) (l ++ [x; y]) = l ++ [y].
Proof.
  induction l as [| z l IH]; [reflexivity |].
  change (remove_nth (List.length (z :: l)) ((z :: l) ++ [x; y]))
    with (z :: remove_nth (List.length l) (l ++ [x; y])).
  rewrite IH. reflexivity.
Qed.

Lemma remove_nth_snoc2_snd {A} (l : list A) (x y : A) :
  remove_nth (S (List.length l)) (l ++ [x; y]) = l ++ [x].
Proof.
  induction l as [| z l IH]; [reflexivity |].
  change (remove_nth (S (List.length (z :: l))) ((z :: l) ++ [x; y]))
    with (z :: remove_nth (S (List.length l)) (l ++ [x; y])).
  rewrite IH. reflexivity.
Qed.

(** An enabled click suspends its handler: name the acquisition [a] it
    leaves in flight, from the proof [G] that the button is enabled. *)
Ltac suspended p i G a W :=
  destruct (awaited (handleGarmentClick p i)) as [a |] eqn:W;
  [| unfold handleGarmentClick, garmentButton_disabled in *;
     rewrite G in W; discriminate].

(** Two enabled clicks in a row suspend two handlers, in click order. *)
Lemma two_clicks
  (p q : Props) (i j : WardrobeItem.t) (ai aj : Acquisition) (sys : System) :
  garmentButton_disabled p i = false ->
  garmentButton_disabled q j = false ->
  awaited (handleGarmentClick p i) = Some ai ->
  awaited (handleGarmentClick q j) = Some aj ->
  dispatch (clickGarment q j) (dispatch (clickGarment p i) sys)
  = {| panel := apply_call (apply_call (panel sys) (setError None))
                  (setError None);
       inflight := inflight sys ++ [ai; aj];
       log := log sys |}.
Proof.
  intros Gi Gj Wi Wj.
  rewrite (click_enabled p i sys Gi), Wi.
  rewrite (click_enabled q j _ Gj), Wj. cbn [inflight panel log].
  rewrite <- app_assoc. reflexivity.
Qed.

(** First clicked settles first, then the second one. *)
Lemma settle_in_click_order
  (p q : Props) (i j : WardrobeItem.t) (bi bj : Browser) (fi fj : File)
  (sys : System) :
  garmentButton_disabled p i = false ->
  garmentButton_disabled q j = false ->
  promise_of (urlToFile bi (WardrobeItem.url i) (WardrobeItem.name i))
  = Fulfilled fi ->
  promise_of (urlToFile bj (WardrobeItem.url j) (WardrobeItem.name j))
  = Fulfilled fj ->
  pending_selection
    (dispatch_all [clickGarment p i; clickGarment q j;
                   acquired (List.length (inflight sys)) bi;
                   acquired (List.length (inflight sys)) bj] sys)
  = (Some fj, Some j, lit "Original").
Proof.
  intros Gi Gj Hi Hj.
  suspended p i Gi ai Wi. suspended q j Gj aj Wj.
  cbn [dispatch_all fold_left].
  rewrite (two_clicks p q i j ai aj sys Gi Gj Wi Wj).
  match goal with
  | |- context [dispatch (acquired ?n bi) ?s] =>
      destruct (acquired_overwrites p i bi fi n s Gi) as (_ & Hrest);
      [ cbn [inflight]; rewrite Wi; apply nth_error_snoc2_fst | exact Hi | ]
  end.
  cbn [inflight] in Hrest. rewrite remove_nth_snoc2_fst in Hrest.
  match goal with
  | |- context [dispatch (acquired ?n bj) ?s] =>
      destruct (acquired_overwrites q j bj fj n s Gj) as (Hsel & _);
      [ rewrite Hrest, Wj; apply nth_error_snoc | exact Hj | exact Hsel ]
  end.
Qed.

(** Second clicked settles first, then the first one. *)
Lemma settle_against_click_order
  (p q : Props) (i j : WardrobeItem.t) (bi bj : Browser) (fi fj : File)
  (sys : System) :
  garmentButton_disabled p i = false ->
  garmentButton_disabled q j = false ->
  promise_of (urlToFile bi (WardrobeItem.url i) (WardrobeItem.name i))
  = Fulfilled fi ->
  promise_of (urlToFile bj (WardrobeItem.url j) (WardrobeItem.name j))
  = Fulfilled fj ->
  pending_selection
    (dispatch_all [clickGarment p i; clickGarment q j;
                   acquired (S (List.length (inflight sys))) bj;
                   acquired (List.length (inflight sys)) bi] sys)
  = (Some fi, Some i, lit "Original").
Proof.
  intros Gi Gj Hi Hj.
  suspended p i Gi ai Wi. suspended q j Gj aj Wj.
  cbn [dispatch_all fold_left].
  rewrite (two_clicks p q i j ai aj sys Gi Gj Wi Wj).
  match goal with
  | |- context [dispatch (acquired ?n bj) ?s] =>
      destruct (acquired_overwrites q j bj fj n s Gj) as (_ & Hrest);
      [ cbn [inflight]; rewrite Wj; apply nth_error_snoc2_snd | exact Hj | ]
  end.
  cbn [inflight] in Hrest. rewrite remove_nth_snoc2_snd in Hrest.
  match goal with
  | |- context [dispatch (acquired ?n bi) ?s] =>
      destruct (acquired_overwrites p i bi fi n s Gi) as (Hsel & _);
      [ rewrite Hrest, Wi; apply nth_error_snoc | exact Hi | exact Hsel ]
  end.
Qed.

(** C9. Two enabled garment clicks, on [a] and on [b], in either order,
    leave two acquisitions in flight; when both fulfil, the pending
    selection after the second settlement is the file, the item and the
    Original color of the click whose promise settled second. *)
Theorem last_resolved_acquisition_wins
  (sys : System) (pa pb : Props) (a b : WardrobeItem.t)
  (ba bb : Browser) (fa fb : File) :
  garmentButton_disabled pa a = false ->
  garmentButton_disabled pb b = false ->
  promise_of (urlToFile ba (WardrobeItem.url a) (WardrobeItem.name a))
  = Fulfilled fa ->
  promise_of (urlToFile bb (WardrobeItem.url b) (WardrobeItem.name b))
  = Fulfilled fb ->
  pending_selection
    (dispatch_all [clickGarment pa a; clickGarment pb b;
                   acquired (List.length (inflight sys)) ba;
                   acquired (List.length (inflight sys)) bb] sys)
  = (Some fb, Some b, lit "Original")
  /\ pending_selection
       (dispatch_all [clickGarment pa a; clickGarment pb b;
                      acquired (S (List.length (inflight sys))) bb;
                      acquired (List.length (inflight sys)) ba] sys)
     = (Some fa, Some a, lit "Original")
  /\ pending_selection
       (dispatch_all [clickGarment pb b; clickGarment pa a;
                      acquired (S (List.length (inflight sys))) ba;
                      acquired (List.length (inflight sys)) bb] sys)
     = (Some fb, Some b, lit "Original")
  /\ pending_selection
       (dispatch_all [clickGarment pb b; clickGarment pa a;
                      acquired (List.length (inflight sys)) bb;
                      acquired (List.length (inflight sys)) ba] sys)
     = (Some fa, Some a, lit "Original").
Proof.
  intros Ga Gb Ha Hb. repeat split.
  - apply (settle_in_click_order pa pb a b ba bb fa fb sys); assumption.
  - apply (settle_against_click_order pa pb a b ba bb fa fb sys); assumption.
  - apply (settle_against_click_order pb pa b a bb ba fb fa sys); assumption.
  - apply (settle_in_click_order pb pa b a bb ba fb fa sys); assumption.
Qed.

Lemma last_resolved_acquisition_wins_witness :
  garmentButton_disabled idle_props shirt = false
  /\ pending_selection
       (dispatch_all [clickGarment idle_props shirt;
                      clickGarment idle_props jacket;
                      acquired 0 browser_ok; acquired 0 browser_ok]
          initialSystem)
     = (Some jacket_file, Some jacket, lit "Original")
  /\ pending_selection
       (dispatch_all [clickGarment idle_props shirt;
                      clickGarment idle_props jacket;
                      acquired 1 browser_ok; acquired 0 browser_ok]
          initialSystem)
     = (Some shirt_file, Some shirt, lit "Original").
Proof.
  split; [reflexivity |].
  destruct (last_resolved_acquisition_wins initialSystem idle_props idle_props
              shirt jacket browser_ok browser_ok shirt_file jacket_file
              eq_refl eq_refl eq_refl eq_refl)
    as (Hlast_b & Hlast_a & _).
  split; [exact Hlast_b | exact Hlast_a].
Defined.

(** ** The error message *)

(** C10. In a component reached by any sequence of events, an event after
    which a previously set error is null is an enabled garment click, and
    every enabled garment click leaves the error null; choosing a file
    never does.  So an accepted upload that follows a rejected one opens
    the color sub-view with the validation message still set and rendered,
    while an enabled garment click that follows a rejected upload leaves no
    message. *)
Theorem only_garment_click_clears_error :
  (forall events e,
     error (panel (dispatch_all events initialSystem)) <> None ->
     error (panel (dispatch e (dispatch_all events initialSystem))) = None ->
     exists props item,
       e = clickGarment props item
       /\ garmentButton_disabled props item = false)
  /\ (forall props item sys,
        garmentButton_disabled props item = false ->
        error (panel (dispatch (clickGarment props item) sys)) = None)
  /\ (forall w files sys,
        error (panel sys) <> None ->
        error (panel (dispatch (changeFile w files) sys)) <> None)
  /\ (forall w1 w2 bad good rest1 rest2 sys,
        startsWith (file_type bad) (lit "image/") = false ->
        startsWith (file_type good) (lit "image/") = true ->
        colorModal_shown
          (panel (dispatch_all [changeFile w1 (Some (bad :: rest1));
                                changeFile w2 (Some (good :: rest2))] sys))
        = true
        /\ pendingFile
             (panel (dispatch_all [changeFile w1 (Some (bad :: rest1));
                                   changeFile w2 (Some (good :: rest2))] sys))
           = Some good
        /\ error
             (panel (dispatch_all [changeFile w1 (Some (bad :: rest1));
                                   changeFile w2 (Some (good :: rest2))] sys))
           = Some (lit "Please select an image file.")
        /\ errorMessage_shown
             (panel (dispatch_all [changeFile w1 (Some (bad :: rest1));
                                   changeFile w2 (Some (good :: rest2))] sys))
           = true)
  /\ (forall w bad rest props item sys,
        startsWith (file_type bad) (lit "image/") = false ->
        garmentButton_disabled props item = false ->
        errorMessage_shown
          (panel (dispatch (changeFile w (Some (bad :: rest))) sys)) = true
        /\ errorMessage_shown
             (panel (dispatch_all [changeFile w (Some (bad :: rest));
                                   clickGarment props item] sys))
           = false).
Proof.
  split; [| split; [| split; [| split]]].
  - intros events e. apply error_removed_by_click.
    apply (reachable_invariant events).
  - intros props item sys G. rewrite (click_enabled props item sys G).
    reflexivity.
  - intros w files sys H. unfold dispatch, handleFileChange.
    destruct files as [[| file rest] |]; try (rewrite perform_nil; exact H).
    destruct (startsWith _ _); cbn; [exact H | discriminate].
  - intros w1 w2 bad good rest1 rest2 sys Hbad Hgood.
    cbn [dispatch_all fold_left dispatch]. unfold handleFileChange.
    rewrite Hbad, Hgood. repeat split; reflexivity.
  - intros w bad rest props item sys Hbad G.
    cbn [dispatch_all fold_left]. rewrite (click_enabled props item _ G).
    unfold dispatch, handleFileChange. rewrite Hbad. split; reflexivity.
Qed.

Lemma only_garment_click_clears_error_witness :
  (startsWith (file_type notes) (lit "image/") = false
   /\ startsWith (file_type photo) (lit "image/") = true
   /\ colorModal_shown
        (panel (dispatch_all [changeFile sample_window (Some [notes]);
                              changeFile sample_window (Some [photo])]
                  initialSystem)) = true
   /\ error
        (panel (dispatch_all [changeFile sample_window (Some [notes]);
                              changeFile sample_window (Some [photo])]
                  initialSystem))
      = Some (lit "Please select an image file."))
  /\ (garmentButton_disabled idle_props shirt = false
      /\ errorMessage_shown
           (panel (dispatch_all [changeFile sample_window (Some [notes]);
                                 clickGarment idle_props shirt]
                     initialSystem)) = false).
Proof.
  destruct only_garment_click_clears_error as (_ & _ & _ & Hstale & Hclick).
  split.
  - destruct (Hstale sample_window sample_window notes photo [] []
                initialSystem eq_refl eq_refl) as (Hshown & _ & Herr & _).
    split; [reflexivity |]. split; [reflexivity |].
    split; [exact Hshown | exact Herr].
  - destruct (Hclick sample_window notes [] idle_props shirt initialSystem
                eq_refl eq_refl) as (_ & Hgone).
    split; [reflexivity | exact Hgone].
Defined.

(** * Further properties *)

(** ** The executor of [urlToFile] *)

(** A fulfilled promise tells how it came about. *)
Lemma urlToFile_fulfilled_inv
  (b : Browser) (url filename : jsstring) (file : File) :
  promise_of (urlToFile b url filename) = Fulfilled file ->
  exists image blob,
    decode b url = onload image
    /\ getContext b (sized_canvas image) = true
    /\ toBlob b (drawn (sized_canvas image) image 0 0) (lit "image/png")
       = Some blob
    /\ file = {| file_parts := [blob];
                 file_name := toUSVString filename;
                 file_type := or_else (blob_type blob) (lit "image/png") |}.
Proof.
  unfold urlToFile, image_onload, image_onerror.
  destruct (decode b url) as [image | ev |] eqn:Hdec;
    [| discriminate | discriminate].
  destruct (getContext b (sized_canvas image)) eqn:Hctx; [| discriminate].
  destruct (toBlob b (drawn (sized_canvas image) image 0 0) (lit "image/png"))
    as [blob |] eqn:Hblob; [| discriminate].
  cbn. intros [= <-]. exists image, blob. auto.
Qed.

Lemma or_else_nonempty (a : jsstring) : or_else a (lit "image/png") <> lit "".
Proof. destruct a; cbn; discriminate. Qed.

(** X2. Whatever the browser, a file [urlToFile] fulfils with has exactly
    one part, the blob [toBlob] produced for the image drawn on a canvas of
    its natural size; its name is the requested name as a USVString (lone
    surrogates replaced by U+FFFD), so the requested name itself when that
    is well formed; and its type is never empty. *)
Theorem urlToFile_fulfilled_file_wraps_blob
  (b : Browser) (url filename : jsstring) (file : File) :
  promise_of (urlToFile b url filename) = Fulfilled file ->
  file_name file = toUSVString filename
  /\ (isWellFormed filename = true -> file_name file = filename)
  /\ file_type file <> lit ""
  /\ exists image blob,
       decode b url = onload image
       /\ getContext b (sized_canvas image) = true
       /\ toBlob b (drawn (sized_canvas image) image 0 0) (lit "image/png")
          = Some blob
       /\ file_parts file = [blob]
       /\ (file_type file = blob_type blob
           \/ blob_type blob = lit "" /\ file_type file = lit "image/png").
Proof.
  intros H.
  destruct (urlToFile_fulfilled_inv b url filename file H)
    as (image & blob & Hdec & Hctx & Hblob & ->).
  cbn [file_name file_type file_parts].
  split; [reflexivity |]. split; [apply toUSVString_wellFormed |].
  split; [apply or_else_nonempty |].
  exists image, blob. repeat split; try assumption.
  destruct (blob_type blob); [right; split; reflexivity | left; reflexivity].
Qed.

Lemma urlToFile_fulfilled_file_wraps_blob_witness :
  promise_of (urlToFile browser_untyped (WardrobeItem.url odd_top)
                (WardrobeItem.name odd_top))
  = Fulfilled {| file_parts := [untyped_blob];
                 file_name := lit "Top" ++ [65533%N];
                 file_type := lit "image/png" |}
  /\ file_name {| file_parts := [untyped_blob];
                  file_name := lit "Top" ++ [65533%N];
                  file_type := lit "image/png" |}
     = toUSVString (lit "Top" ++ [55357%N]).
Proof.
  split; [reflexivity |].
  apply (urlToFile_fulfilled_file_wraps_blob browser_untyped
           (WardrobeItem.url odd_top) (WardrobeItem.name odd_top)).
  reflexivity.
Defined.

(** X1. The order of the executor's steps: [crossOrigin] is set to
    anonymous before [src] is assigned the url; a canvas is only created
    for a loaded image, with its natural size; the image is only drawn, at
    the origin, when a context was obtained; and [toBlob] is only called
    after that drawing. *)
Theorem urlToFile_step_order (b : Browser) (url filename : jsstring) :
  (exists rest,
     urlToFile b url filename
     = setCrossOrigin (lit "anonymous") :: setSrc url :: rest
     /\ forall u, ~ In (setSrc u) rest)
  /\ (forall w h,
        In (createCanvas w h) (urlToFile b url filename) ->
        exists image,
          decode b url = onload image
          /\ w = naturalWidth image /\ h = naturalHeight image)
  /\ (forall image dx dy,
        In (drawImage image dx dy) (urlToFile b url filename) ->
        decode b url = onload image
        /\ getContext b (sized_canvas image) = true
        /\ dx = 0%Z /\ dy = 0%Z)
  /\ (forall type,
        In (callToBlob type) (urlToFile b url filename) ->
        exists image before after,
          urlToFile b url filename = before ++ callToBlob type :: after
          /\ In (drawImage image 0 0) before
          /\ In (createCanvas (naturalWidth image) (naturalHeight image)) before
          /\ In getContext2d before).
Proof.
  unfold urlToFile, image_onload, image_onerror.
  destruct (decode b url) as [image | ev |] eqn:Hdec.
  - destruct (getContext b (sized_canvas image)) eqn:Hctx; cbn [negb].
    + destruct (toBlob b (drawn (sized_canvas image) image 0 0) (lit "image/png"))
        as [blob |] eqn:Hblob; cbn [app].
      * split; [eexists; split; [reflexivity |];
                intros u [H | [H | [H | [H | [H | []]]]]]; discriminate |].
        split; [intros w h [H | [H | [H | [H | [H | [H | [H | []]]]]]]];
                try discriminate; injection H as <- <-;
                exists image; auto |].
        split; [intros im dx dy [H | [H | [H | [H | [H | [H | [H | []]]]]]]];
                try discriminate; injection H as <- <- <-; auto |].
        intros type [H | [H | [H | [H | [H | [H | [H | []]]]]]]];
          try discriminate. injection H as <-.
        exists image,
          [setCrossOrigin (lit "anonymous"); setSrc url;
           createCanvas (naturalWidth image) (naturalHeight image);
           getContext2d; drawImage image 0 0].
        eexists. split; [reflexivity |]. cbn; auto 10.
      * split; [eexists; split; [reflexivity |];
                intros u [H | [H | [H | [H | [H | []]]]]]; discriminate |].
        split; [intros w h [H | [H | [H | [H | [H | [H | [H | []]]]]]]];
                try discriminate; injection H as <- <-;
                exists image; auto |].
        split; [intros im dx dy [H | [H | [H | [H | [H | [H | [H | []]]]]]]];
                try discriminate; injection H as <- <- <-; auto |].
        intros type [H | [H | [H | [H | [H | [H | [H | []]]]]]]];
          try discriminate. injection H as <-.
        exists image,
          [setCrossOrigin (lit "anonymous"); setSrc url;
           createCanvas (naturalWidth image) (naturalHeight image);
           getContext2d; drawImage image 0 0].
        eexists. split; [reflexivity |]. cbn; auto 10.
    + cbn [app].
      split; [eexists; split; [reflexivity |];
              intros u [H | [H | [H | []]]]; discriminate |].
      split; [intros w h [H | [H | [H | [H | [H | []]]]]];
              try discriminate; injection H as <- <-; exists image; auto |].
      split; [intros im dx dy [H | [H | [H | [H | [H | []]]]]];
              discriminate |].
      intros type [H | [H | [H | [H | [H | []]]]]]; discriminate.
  - cbn [app].
    split; [eexists; split; [reflexivity |]; intros u [H | []]; discriminate |].
    split; [intros w h [H | [H | [H | []]]]; discriminate |].
    split; [intros im dx dy [H | [H | [H | []]]]; discriminate |].
    intros type [H | [H | [H | []]]]; discriminate.
  - cbn [app].
    split; [eexists; split; [reflexivity |]; intros u []|].
    split; [intros w h [H | [H | []]]; discriminate |].
    split; [intros im dx dy [H | [H | []]]; discriminate |].
    intros type [H | [H | []]]; discriminate.
Qed.

(** ** What every event preserves *)

Ltac simp_sys :=
  cbn [perform apply_calls fold_left apply_call panel log inflight effects
       filter is_setter negb app error activeTab isSaveModalOpen newLookName
       selectedGarmentForColor selectedColor pendingFile
       handleCancelColorSelection] in *.

Lemma startsWith_image_nonempty (type : jsstring) :
  startsWith type (lit "image/") = true -> type <> lit "".
Proof. destruct type; [discriminate | discriminate]. Qed.

Lemma Forall_snoc {A} (P : A -> Prop) (l : list A) (x : A) :
  Forall P l -> P x -> Forall P (l ++ [x]).
Proof. intros Hl Hx. apply Forall_app. split; [exact Hl | auto]. Qed.

Lemma dispatch_strong_invariant (e : Event) (sys : System) :
  strong_invariant sys -> strong_invariant (dispatch e sys).
Proof.
  intros (Hinv & Hcoh & Herr & Hlog).
  split; [apply dispatch_invariant; exact Hinv |].
  destruct Hinv as (Hpair & Hcol & Hw).
  unfold pending_coherent, error_known, paired, color_is_swatch in *.
  destruct e as [props item | n b | w files | n | | | tab | | | value | | look | look];
    cbn [dispatch].
  - destruct (garmentButton_disabled props item) eqn:G.
    + unfold garmentButton_disabled in G. unfold handleGarmentClick.
      rewrite G. cbn [run]. rewrite perform_nil. auto.
    + change (run (handleGarmentClick props item) sys)
        with (dispatch (clickGarment props item) sys).
      rewrite (click_enabled props item sys G). simp_sys. auto.
  - destruct (nth_error (inflight sys) n) as [a |] eqn:Hn; [| auto].
    assert (Ha : wf_acquisition a).
    { apply (proj1 (Forall_forall _ _) Hw). eapply nth_error_In; eassumption. }
    destruct (wf_acquisition_inv a Ha) as (item & Hu & Hf & Htry & Hcatch).
    destruct (promise_of _) as [| file | err] eqn:Hp; [auto | |].
    + rewrite Htry. simp_sys. rewrite app_nil_r.
      apply urlToFile_fulfilled_inv in Hp.
      destruct Hp as (image & blob & _ & _ & _ & ->).
      split; [| auto].
      intros f [= <-]. cbn [file_type file_name].
      split; [apply or_else_nonempty |]. intros i [= <-].
      right. rewrite Hf. reflexivity.
    + destruct (Hcatch err) as (msg & ->). simp_sys.
      split; [exact Hcoh |]. split; [auto |].
      apply Forall_snoc; [exact Hlog | exact I].
  - unfold handleFileChange. destruct files as [[| file rest] |];
      try (rewrite perform_nil; auto).
    destruct (startsWith _ _) eqn:Himg; cbn [negb]; simp_sys;
      rewrite app_nil_r.
    + split; [| auto]. intros f [= <-].
      split; [apply startsWith_image_nonempty; exact Himg |].
      intros i [= <-]. left. reflexivity.
    + auto.
  - destruct (nth_error COLORS n) as [color |]; [| auto].
    simp_sys. rewrite app_nil_r. auto.
  - unfold handleApplyGarment.
    destruct (pendingFile (panel sys)) as [f |] eqn:Ef;
      destruct (selectedGarmentForColor (panel sys)) as [i |] eqn:Ei;
      try (rewrite perform_nil, ?Ef, ?Ei; auto; fail).
    simp_sys. split; [discriminate |]. split; [exact Herr |].
    apply Forall_snoc; [exact Hlog |]. cbn [call_sound].
    destruct (Hcoh f eq_refl) as (Ht & Hn). auto.
  - simp_sys. rewrite app_nil_r. split; [discriminate | auto].
  - simp_sys. rewrite app_nil_r. auto.
  - simp_sys. rewrite app_nil_r. auto.
  - simp_sys. rewrite app_nil_r. auto.
  - simp_sys. rewrite app_nil_r. auto.
  - unfold handleSaveSubmit.
    destruct (trim (newLookName (panel sys))) as [| ch rest] eqn:E;
      cbn [truthy]; simp_sys.
    + split; [exact Hcoh |]. split; [exact Herr |].
      apply Forall_snoc; [exact Hlog | exact I].
    + split; [exact Hcoh |]. split; [exact Herr |].
      change (log sys ++ [preventDefault; onSaveLook (ch :: rest)])
        with (log sys ++ [preventDefault] ++ [onSaveLook (ch :: rest)]).
      rewrite app_assoc. apply Forall_snoc;
        [apply Forall_snoc; [exact Hlog | exact I] |].
      cbn [call_sound]. rewrite <- E.
      split; [rewrite E; discriminate |].
      split; [apply trimStart_trim | apply trimEnd_trim].
  - simp_sys. split; [exact Hcoh |]. split; [exact Herr |].
    apply Forall_snoc; [exact Hlog | exact I].
  - simp_sys. split; [exact Hcoh |]. split; [exact Herr |].
    apply Forall_snoc; [exact Hlog | exact I].
Qed.

Lemma initial_strong_invariant : strong_invariant initialSystem.
Proof.
  split; [apply initial_invariant |]. split; [| split].
  - intros f H. discriminate.
  - left; reflexivity.
  - constructor.
Qed.

Lemma reachable_strong_invariant (events : list Event) :
  strong_invariant (dispatch_all events initialSystem).
Proof.
  generalize initial_strong_invariant. generalize initialSystem.
  induction events as [| e events IH]; intros sys H; cbn.
  - exact H.
  - apply IH, dispatch_strong_invariant, H.
Qed.

(** ** What the parent and the user can rely on *)

(** X5. The twelve swatch names are pairwise different, and after any
    sequence of events exactly one swatch button carries the selection
    ring: the one whose name is the selected color. *)
Theorem one_swatch_highlighted (events : list Event) :
  NoDup (map swatch_name COLORS)
  /\ exists color,
       filter (swatch_highlighted (panel (dispatch_all events initialSystem)))
         COLORS = [color]
       /\ swatch_name color
          = selectedColor (panel (dispatch_all events initialSystem)).
Proof.
  split.
  - repeat (constructor; [cbn; intuition discriminate |]). constructor.
  - destruct (reachable_invariant events) as (_ & Hcol & _).
    unfold color_is_swatch in Hcol. unfold swatch_highlighted.
    cbn [map COLORS swatch_name In] in Hcol.
    repeat (destruct Hcol as [Hcol | Hcol];
            [rewrite <- Hcol; eexists; split; reflexivity |]).
    destruct Hcol.
Qed.

(** X6. Whatever the user did, every call of [onGarmentSelect] the panel
    has made passed a color that is one of the swatch names, and a file
    that has a type and carries the name of the garment passed with it: the
    very name for an upload, the name as [new File] converted it for a
    clicked garment, which is the very name when that is well formed. *)
Theorem applier_receives_coherent_selection
  (events : list Event) (f : File) (i : WardrobeItem.t) (c : jsstring) :
  In (onGarmentSelect f i c) (log (dispatch_all events initialSystem)) ->
  In c (map swatch_name COLORS)
  /\ (file_name f = WardrobeItem.name i
      \/ file_name f = toUSVString (WardrobeItem.name i))
  /\ (isWellFormed (WardrobeItem.name i) = true ->
      file_name f = WardrobeItem.name i)
  /\ file_type f <> lit "".
Proof.
  intros H. destruct (reachable_strong_invariant events) as (_ & _ & _ & Hlog).
  apply (proj1 (Forall_forall _ _) Hlog) in H.
  destruct H as (Hc & Hn & Ht).
  split; [exact Hc |]. split; [exact Hn |]. split; [| exact Ht].
  intros Hwf. destruct Hn as [Hn | Hn]; [exact Hn |].
  rewrite Hn. apply toUSVString_wellFormed. exact Hwf.
Qed.

Lemma applier_receives_coherent_selection_witness :
  (In (onGarmentSelect jacket_file jacket (lit "Green"))
      (log (dispatch_all [clickGarment idle_props jacket;
                          acquired 0 browser_ok;
                          clickSwatch 6; clickApply] initialSystem))
   /\ file_name jacket_file = WardrobeItem.name jacket)
  /\ (In (onGarmentSelect
            {| file_parts := [png_blob];
               file_name := lit "Top" ++ [65533%N];
               file_type := lit "image/png" |} odd_top (lit "Original"))
         (log (dispatch_all [clickGarment idle_props odd_top;
                             acquired 0 browser_ok; clickApply]
                 initialSystem))
      /\ In (lit "Original") (map swatch_name COLORS)).
Proof.
  split; (split; [left; reflexivity |]).
  - destruct (applier_receives_coherent_selection
                [clickGarment idle_props jacket; acquired 0 browser_ok;
                 clickSwatch 6; clickApply]
                jacket_file jacket (lit "Green")) as (_ & _ & Hn & _).
    + left; reflexivity.
    + apply Hn. reflexivity.
  - destruct (applier_receives_coherent_selection
                [clickGarment idle_props odd_top; acquired 0 browser_ok;
                 clickApply]
                {| file_parts := [png_blob];
                   file_name := lit "Top" ++ [65533%N];
                   file_type := lit "image/png" |} odd_top (lit "Original"))
      as (Hc & _).
    + left; reflexivity.
    + exact Hc.
Defined.

(** X7. Every name the panel has passed to [onSaveLook] is non-empty and
    already trimmed: it neither starts nor ends with a whitespace
    character. *)
Theorem saved_names_are_trimmed (events : list Event) (name : jsstring) :
  In (onSaveLook name) (log (dispatch_all events initialSystem)) ->
  name <> lit ""
  /\ trim name = name
  /\ (forall c rest, name = c :: rest -> isWhiteSpace c = false)
  /\ (forall front c, name = front ++ [c] -> isWhiteSpace c = false).
Proof.
  intros H. destruct (reachable_strong_invariant events) as (_ & _ & _ & Hlog).
  apply (proj1 (Forall_forall _ _) Hlog) in H.
  destruct H as (Hne & Hs & He).
  split; [exact Hne |]. split; [| split].
  - unfold trim. rewrite Hs. exact He.
  - intros c rest ->. eapply trimStart_head; exact Hs.
  - intros front c ->. unfold trimEnd in He.
    apply (f_equal (@rev N)) in He. rewrite rev_involutive in He.
    rewrite rev_app_distr in He. cbn [rev app] in He.
    eapply trimStart_head; exact He.
Qed.

Lemma saved_names_are_trimmed_witness :
  In (onSaveLook (lit "Summer Vibes"))
     (log (dispatch submitSave (naming_system (lit "  Summer Vibes "))))
  /\ trim (lit "Summer Vibes") = lit "Summer Vibes".
Proof.
  split; [right; left; reflexivity |].
  apply (saved_names_are_trimmed
           [clickTab looks; clickSaveCurrentLook;
            inputLookName (lit "  Summer Vibes "); submitSave]
           (lit "Summer Vibes")).
  right; left; reflexivity.
Defined.

(** X8. After any sequence of events the error cell is null or holds one
    of the two messages of the source, the load failure or the validation
    failure; as neither is empty, the message paragraph is rendered exactly
    when the cell is not null. *)
Theorem error_cell_holds_known_message (events : list Event) :
  (error (panel (dispatch_all events initialSystem)) = None
   \/ error (panel (dispatch_all events initialSystem)) = Some detailedError
   \/ error (panel (dispatch_all events initialSystem))
      = Some (lit "Please select an image file."))
  /\ (errorMessage_shown (panel (dispatch_all events initialSystem)) = true
      <-> error (panel (dispatch_all events initialSystem)) <> None).
Proof.
  destruct (reachable_strong_invariant events) as (_ & _ & Herr & _).
  split; [exact Herr |]. unfold errorMessage_shown.
  destruct Herr as [-> | [-> | ->]]; cbn; split; congruence.
Qed.

(** ** Garment clicks that fail, and clicks that are enabled *)

(** X3. An enabled garment click whose acquisition rejects only sets the
    error to the load-failure message, which is rendered, and writes one
    line to the console with the item's url and the rejection: the pending
    selection is what it was before the click, the handler is no longer
    suspended and no callback prop is called. *)
Theorem rejected_acquisition_reports_error
  (props : Props) (item : WardrobeItem.t) (b : Browser) (err : JsError)
  (sys : System) :
  garmentButton_disabled props item = false ->
  promise_of (urlToFile b (WardrobeItem.url item) (WardrobeItem.name item))
  = Rejected err ->
  dispatch (acquired (List.length (inflight sys)) b)
    (dispatch (clickGarment props item) sys)
  = {| panel := apply_call (panel sys) (setError (Some detailedError));
       inflight := inflight sys;
       log := log sys ++
         [console_error
            (lit "[CORS Check] Failed to load and convert wardrobe item from URL: "
               ++ WardrobeItem.url item ++ lit ".") err] |}
  /\ errorMessage_shown
       (panel (dispatch (acquired (List.length (inflight sys)) b)
                 (dispatch (clickGarment props item) sys))) = true
  /\ pending_selection
       (dispatch (acquired (List.length (inflight sys)) b)
          (dispatch (clickGarment props item) sys))
     = pending_selection sys.
Proof.
  intros G Hp.
  assert (E : dispatch (acquired (List.length (inflight sys)) b)
                (dispatch (clickGarment props item) sys)
              = {| panel := apply_call (panel sys) (setError (Some detailedError));
                   inflight := inflight sys;
                   log := log sys ++
                     [console_error
                        (lit "[CORS Check] Failed to load and convert wardrobe item from URL: "
                           ++ WardrobeItem.url item ++ lit ".") err] |}).
  { rewrite (click_enabled props item sys G).
    unfold garmentButton_disabled in G. unfold handleGarmentClick.
    rewrite G. cbn [awaited]. unfold dispatch. cbn [inflight].
    rewrite nth_error_snoc. cbn [acq_url acq_filename acq_catch].
    rewrite Hp. rewrite remove_nth_snoc. reflexivity. }
  rewrite E. repeat split; reflexivity.
Qed.

Lemma rejected_acquisition_reports_error_witness :
  garmentButton_disabled idle_props shirt = false
  /\ error (panel (dispatch (acquired 0 browser_unreadable)
                     (dispatch (clickGarment idle_props shirt) picking_system)))
     = Some detailedError
  /\ pending_selection (dispatch (acquired 0 browser_unreadable)
                          (dispatch (clickGarment idle_props shirt)
                             picking_system))
     = (Some photo, Some shirt, lit "Blue").
Proof.
  split; [reflexivity |].
  destruct (rejected_acquisition_reports_error idle_props shirt
              browser_unreadable load_failure picking_system
              eq_refl eq_refl) as (Hsys & _ & Hpend).
  split; [| exact Hpend].
  change (List.length (inflight picking_system)) with 0%nat in Hsys.
  rewrite Hsys. reflexivity.
Defined.

(** X15. The garment button is enabled exactly when its handler goes on to
    wait for the item's file, requested under the item's url and name; such
    a click adds one suspended handler and changes neither the pending
    selection nor the calls made so far, so the color sub-view never opens
    on the click itself. *)
Theorem enabled_click_starts_one_acquisition
  (props : Props) (item : WardrobeItem.t) (sys : System) :
  (garmentButton_disabled props item = false <->
   exists a,
     awaited (handleGarmentClick props item) = Some a
     /\ acq_url a = WardrobeItem.url item
     /\ acq_filename a = WardrobeItem.name item)
  /\ (garmentButton_disabled props item = false ->
      List.length (inflight (dispatch (clickGarment props item) sys))
      = S (List.length (inflight sys))
      /\ pending_selection (dispatch (clickGarment props item) sys)
         = pending_selection sys
      /\ log (dispatch (clickGarment props item) sys) = log sys).
Proof.
  split.
  - unfold garmentButton_disabled, handleGarmentClick.
    destruct (isLoading props || _); cbn [awaited]; split.
    + discriminate.
    + intros (a & H & _). discriminate.
    + intros _. eexists. repeat split; reflexivity.
    + reflexivity.
  - intros G. rewrite (click_enabled props item sys G). cbn [inflight log].
    suspended props item G a W.
    rewrite length_app. cbn. split; [lia | split; reflexivity].
Qed.

Lemma enabled_click_starts_one_acquisition_witness :
  garmentButton_disabled idle_props shirt = false
  /\ List.length (inflight (dispatch (clickGarment idle_props shirt)
                              picking_system)) = 1%nat
  /\ colorModal_shown (panel (dispatch (clickGarment idle_props shirt)
                                initialSystem)) = false.
Proof.
  split; [reflexivity |].
  destruct (enabled_click_starts_one_acquisition idle_props shirt picking_system)
    as (_ & H).
  destruct (H eq_refl) as (Hlen & _).
  split; [exact Hlen | reflexivity].
Defined.

(** ** Swatches, Confirm and Cancel together *)

(** X4. Clicking the n-th swatch changes the selected color to that
    swatch's name and nothing else; a Confirm right after it passes that
    name, with the pending file and item, to [onGarmentSelect].  There are
    twelve swatch buttons, so there is nothing to click from index 12 on. *)
Theorem swatch_then_confirm_applies_that_color
  (sys : System) (n : nat) (color : Swatch) (f : File) (i : WardrobeItem.t) :
  nth_error COLORS n = Some color ->
  pendingFile (panel sys) = Some f ->
  selectedGarmentForColor (panel sys) = Some i ->
  dispatch (clickSwatch n) sys
  = {| panel := apply_call (panel sys) (setSelectedColor (swatch_name color));
       inflight := inflight sys;
       log := log sys |}
  /\ log (dispatch clickApply (dispatch (clickSwatch n) sys))
     = log sys ++ [onGarmentSelect f i (swatch_name color)]
  /\ (n < 12)%nat
  /\ forall m, (12 <= m)%nat -> dispatch (clickSwatch m) sys = sys.
Proof.
  intros Hn Hf Hi.
  assert (E : dispatch (clickSwatch n) sys
              = {| panel := apply_call (panel sys)
                              (setSelectedColor (swatch_name color));
                   inflight := inflight sys;
                   log := log sys |}).
  { unfold dispatch. rewrite Hn. unfold perform. cbn [effects filter is_setter negb].
    rewrite app_nil_r. reflexivity. }
  split; [exact E |]. split; [| split].
  - rewrite E. unfold dispatch, handleApplyGarment.
    cbn [panel apply_call pendingFile selectedGarmentForColor selectedColor].
    rewrite Hf, Hi. reflexivity.
  - change 12%nat with (List.length COLORS).
    apply nth_error_Some. rewrite Hn. discriminate.
  - intros m Hm. unfold dispatch.
    assert (Hnone : nth_error COLORS m = None)
      by (apply nth_error_None; exact Hm).
    rewrite Hnone. reflexivity.
Qed.

Lemma swatch_then_confirm_applies_that_color_witness :
  nth_error COLORS 4 = Some {| swatch_name := lit "Red"; hex := lit "#EF4444" |}
  /\ log (dispatch clickApply (dispatch (clickSwatch 4) picking_system))
     = [onGarmentSelect photo shirt (lit "Red")].
Proof.
  split; [reflexivity |].
  destruct (swatch_then_confirm_applies_that_color picking_system 4
              {| swatch_name := lit "Red"; hex := lit "#EF4444" |} photo shirt
              eq_refl eq_refl eq_refl) as (_ & Hlog & _).
  exact Hlog.
Defined.





(** ** Which event touches which cell *)

(** The garment and color events leave the tab, the save dialog and the
    name field alone; the tab, save and looks events leave the error, the
    pending selection and the suspended handlers alone. *)
Lemma dispatch_frame (e : Event) (sys : System) :
  Forall wf_acquisition (inflight sys) ->
  (save_flow_event e = false ->
   activeTab (panel (dispatch e sys)) = activeTab (panel sys)
   /\ isSaveModalOpen (panel (dispatch e sys)) = isSaveModalOpen (panel sys)
   /\ newLookName (panel (dispatch e sys)) = newLookName (panel sys))
  /\ (save_flow_event e = true ->
      error (panel (dispatch e sys)) = error (panel sys)
      /\ pending_selection (dispatch e sys) = pending_selection sys
      /\ inflight (dispatch e sys) = inflight sys).
Proof.
  intros Hw. unfold pending_selection.
  destruct e as [props item | n b | w files | n | | | tab | | | value | | look | look];
    cbn [save_flow_event]; (split; [| try discriminate]); try discriminate;
    intros _; cbn [dispatch]; try (repeat split; reflexivity).
  - unfold handleGarmentClick. destruct (isLoading props || _); cbn [run];
      repeat split; reflexivity.
  - destruct (nth_error (inflight sys) n) as [a |] eqn:Hn; [| auto].
    assert (Ha : wf_acquisition a).
    { apply (proj1 (Forall_forall _ _) Hw). eapply nth_error_In; eassumption. }
    destruct (wf_acquisition_inv a Ha) as (item & _ & _ & Htry & Hcatch).
    destruct (promise_of _) as [| file | err]; [auto | |].
    + rewrite Htry. repeat split; reflexivity.
    + destruct (Hcatch err) as (msg & ->). repeat split; reflexivity.
  - unfold handleFileChange. destruct files as [[| file rest] |];
      try (repeat split; reflexivity).
    destruct (startsWith _ _); repeat split; reflexivity.
  - destruct (nth_error COLORS n); repeat split; reflexivity.
  - unfold handleApplyGarment.
    destruct (pendingFile (panel sys)), (selectedGarmentForColor (panel sys));
      repeat split; reflexivity.
  - unfold handleSaveSubmit. destruct (truthy _); repeat split; reflexivity.
Qed.

(** X11. The two flows of the panel do not interfere.  After any sequence
    of events, an event of the garment grid or the color sub-view (click,
    settlement, upload, swatch, Confirm, Cancel) changes neither the active
    tab, nor whether the save dialog is open, nor the typed name; an event
    of the tab bar, the save dialog or the looks grid changes neither the
    error, nor the pending selection, nor the suspended acquisitions. *)
Theorem flows_do_not_interfere (events : list Event) (e : Event) :
  (save_flow_event e = false ->
   activeTab (panel (dispatch e (dispatch_all events initialSystem)))
   = activeTab (panel (dispatch_all events initialSystem))
   /\ isSaveModalOpen (panel (dispatch e (dispatch_all events initialSystem)))
      = isSaveModalOpen (panel (dispatch_all events initialSystem))
   /\ newLookName (panel (dispatch e (dispatch_all events initialSystem)))
      = newLookName (panel (dispatch_all events initialSystem)))
  /\ (save_flow_event e = true ->
      error (panel (dispatch e (dispatch_all events initialSystem)))
      = error (panel (dispatch_all events initialSystem))
      /\ pending_selection (dispatch e (dispatch_all events initialSystem))
         = pending_selection (dispatch_all events initialSystem)
      /\ inflight (dispatch e (dispatch_all events initialSystem))
         = inflight (dispatch_all events initialSystem)).
Proof.
  apply dispatch_frame. apply (reachable_invariant events).
Qed.

Lemma flows_do_not_interfere_witness :
  (save_flow_event (acquired 0 browser_ok) = false
   /\ newLookName
        (panel (dispatch (acquired 0 browser_ok)
                  (dispatch_all [clickGarment idle_props shirt;
                                 clickSaveCurrentLook;
                                 inputLookName (lit "Draft")] initialSystem)))
      = lit "Draft")
  /\ (save_flow_event submitSave = true
      /\ pending_selection
           (dispatch submitSave
              (dispatch_all [changeFile sample_window (Some [photo]);
                             inputLookName (lit "Draft")] initialSystem))
         = pending_selection
             (dispatch_all [changeFile sample_window (Some [photo]);
                            inputLookName (lit "Draft")] initialSystem)).
Proof.
  split; (split; [reflexivity |]).
  - destruct (flows_do_not_interfere
                [clickGarment idle_props shirt; clickSaveCurrentLook;
                 inputLookName (lit "Draft")] (acquired 0 browser_ok))
      as (H & _).
    destruct (H eq_refl) as (_ & _ & Hname). rewrite Hname. reflexivity.
  - destruct (flows_do_not_interfere
                [changeFile sample_window (Some [photo]);
                 inputLookName (lit "Draft")] submitSave) as (_ & H).
    destruct (H eq_refl) as (_ & Hpend & _). exact Hpend.
Defined.

(** X12. The typed look name is only changed by typing and by a
    submission that saves (which empties it): closing the save dialog, by
    its cross or its Cancel button, keeps the draft, and re-opening the
    dialog shows it again. *)
Theorem look_name_survives_closing (events : list Event) (e : Event) :
  (newLookName (panel (dispatch e (dispatch_all events initialSystem)))
   <> newLookName (panel (dispatch_all events initialSystem)) ->
   (exists value, e = inputLookName value)
   \/ (e = submitSave
       /\ trim (newLookName (panel (dispatch_all events initialSystem)))
          <> lit ""
       /\ newLookName (panel (dispatch e (dispatch_all events initialSystem)))
          = lit ""))
  /\ (forall value,
        newLookName
          (panel (dispatch_all [inputLookName value; clickCloseSaveModal;
                                clickSaveCurrentLook]
                    (dispatch_all events initialSystem))) = value
        /\ isSaveModalOpen
             (panel (dispatch_all [inputLookName value; clickCloseSaveModal;
                                   clickSaveCurrentLook]
                       (dispatch_all events initialSystem))) = true).
Proof.
  split; [| intros value; split; reflexivity].
  pose proof (dispatch_frame e (dispatch_all events initialSystem)) as Hframe.
  destruct Hframe as (Hsel & _); [apply (reachable_invariant events) |].
  set (sys := dispatch_all events initialSystem) in *.
  destruct (save_flow_event e) eqn:He.
  - clear Hsel.
    destruct e as [props item | n b | w files | n | | | tab | | | value | | look | look];
      try discriminate; intros Hch;
      try (exfalso; apply Hch; reflexivity).
    + left. exists value. reflexivity.
    + right. revert Hch. unfold dispatch, handleSaveSubmit.
      destruct (trim (newLookName (panel sys))) as [| ch rest] eqn:E;
        cbn [truthy].
      * intros Hch. exfalso; apply Hch; reflexivity.
      * intros _. split; [reflexivity |]. split; [discriminate | reflexivity].
  - intros Hch. exfalso. apply Hch. apply Hsel. reflexivity.
Qed.

Lemma look_name_survives_closing_witness :
  newLookName (panel (dispatch submitSave (naming_system (lit "Summer Vibes"))))
  <> newLookName (panel (naming_system (lit "Summer Vibes")))
  /\ newLookName
       (panel (dispatch submitSave (naming_system (lit "Summer Vibes"))))
     = lit "".
Proof.
  split; [vm_compute; discriminate |].
  destruct (look_name_survives_closing
              [clickTab looks; clickSaveCurrentLook;
               inputLookName (lit "Summer Vibes")] submitSave) as (H & _).
  destruct H as [(value & Hv) | (_ & _ & Hempty)].
  - vm_compute. discriminate.
  - discriminate Hv.
  - exact Hempty.
Defined.

(** ** Custom garments *)

Lemma lit_inj (a b : string) : lit a = lit b -> a = b.
Proof.
  unfold lit. intros H.
  apply (f_equal (map ascii_of_N)) in H. rewrite !map_map in H.
  rewrite (map_ext _ (fun x => x)) in H by apply ascii_N_embedding.
  rewrite (map_ext (fun x => ascii_of_N (N_of_ascii x)) (fun x => x)) in H
    by apply ascii_N_embedding.
  rewrite !map_id in H.
  apply (f_equal string_of_list_ascii) in H.
  rewrite !string_of_list_ascii_of_string in H. exact H.
Qed.

Lemma to_int_printable (z : Z) :
  Z.to_int z <> Decimal.Pos Decimal.Nil /\ Z.to_int z <> Decimal.Neg Decimal.Nil.
Proof.
  destruct z as [| p | p]; cbn; split; try discriminate;
    intros [= H]; exact (DecimalPos.Unsigned.to_uint_nonnil p H).
Qed.

(** Two numbers print alike only when they are equal. *)
Lemma numberToString_inj (a b : Z) :
  numberToString a = numberToString b -> a = b.
Proof.
  unfold numberToString. intros H. apply lit_inj in H.
  apply (f_equal NilZero.int_of_string) in H.
  destruct (to_int_printable a) as (Ha1 & Ha2).
  destruct (to_int_printable b) as (Hb1 & Hb2).
  rewrite !NilZero.isi in H by assumption.
  injection H as H. apply DecimalZ.to_int_inj. exact H.
Qed.

(** X13. The id of a custom garment is custom- followed by the clock
    reading and depends on nothing else: two accepted uploads get the same
    id exactly when [Date.now()] returned the same number, be they of the
    same file or not. *)
Theorem custom_ids_follow_the_clock
  (w1 w2 : Window) (f1 f2 : File) (r1 r2 : list File) (s1 s2 : System)
  (i1 i2 : WardrobeItem.t) :
  startsWith (file_type f1) (lit "image/") = true ->
  startsWith (file_type f2) (lit "image/") = true ->
  selectedGarmentForColor (panel (dispatch (changeFile w1 (Some (f1 :: r1))) s1))
  = Some i1 ->
  selectedGarmentForColor (panel (dispatch (changeFile w2 (Some (f2 :: r2))) s2))
  = Some i2 ->
  startsWith (WardrobeItem.id i1) (lit "custom-") = true
  /\ (WardrobeItem.id i1 = WardrobeItem.id i2 <-> Date_now w1 = Date_now w2).
Proof.
  unfold dispatch, handleFileChange. intros -> ->. cbn. intros [= <-] [= <-].
  cbn [WardrobeItem.id]. split; [| split].
  - cbn. destruct (numberToString (Date_now w1)); reflexivity.
  - intros H. injection H as H. apply numberToString_inj. exact H.
  - intros ->. reflexivity.
Qed.

Lemma custom_ids_follow_the_clock_witness :
  startsWith (file_type photo) (lit "image/") = true
  /\ lit "custom-1700000000000" <> lit "custom-1700000000001"
  /\ startsWith (lit "custom-1700000000000") (lit "custom-") = true.
Proof.
  split; [reflexivity |].
  destruct (custom_ids_follow_the_clock sample_window later_window photo photo
              [] [] initialSystem initialSystem
              {| WardrobeItem.id := lit "custom-1700000000000";
                 WardrobeItem.name := lit "dress.png";
                 WardrobeItem.url := lit "blob:dress.png" |}
              {| WardrobeItem.id := lit "custom-1700000000001";
                 WardrobeItem.name := lit "dress.png";
                 WardrobeItem.url := lit "blob:dress.png" |}
              eq_refl eq_refl eq_refl eq_refl) as (Hprefix & Hiff).
  split; [| exact Hprefix].
  intros H. apply Hiff in H. discriminate H.
Defined.

(** ** Settlements that come late *)

(** X14. A settlement is never dropped: when the file of an earlier
    garment click arrives after the user has uploaded a file of their own
    and picked a color for it, the pending selection becomes the clicked
    garment with its file and the Original color; the upload and the
    chosen color are gone. *)
Theorem late_settlement_replaces_upload
  (props : Props) (item : WardrobeItem.t) (b : Browser) (file : File)
  (w : Window) (files : option (list File)) (n : nat) (sys : System) :
  garmentButton_disabled props item = false ->
  promise_of (urlToFile b (WardrobeItem.url item) (WardrobeItem.name item))
  = Fulfilled file ->
  pending_selection
    (dispatch_all [clickGarment props item;
                   changeFile w files;
                   clickSwatch n;
                   acquired (List.length (inflight sys)) b] sys)
  = (Some file, Some item, lit "Original")
  /\ colorModal_shown
       (panel (dispatch_all [clickGarment props item;
                             clickCancelColor;
                             acquired (List.length (inflight sys)) b] sys))
     = true.
Proof.
  intros G Hp. suspended props item G a W.
  cbn [dispatch_all fold_left].
  rewrite (click_enabled props item sys G), W.
  split.
  - match goal with
    | |- context [dispatch (acquired ?k b) ?s] =>
        destruct (acquired_overwrites props item b file k s G) as (Hsel & _);
        [| exact Hp | exact Hsel]
    end.
    rewrite W.
    assert (Hswatch : forall s, inflight (dispatch (clickSwatch n) s) = inflight s).
    { intros s. cbn [dispatch]. destruct (nth_error COLORS n); reflexivity. }
    rewrite Hswatch. cbn [dispatch perform inflight]. apply nth_error_snoc.
  - match goal with
    | |- context [dispatch (acquired ?k b) ?s] =>
        destruct (acquired_overwrites props item b file k s G) as (Hsel & _);
        [rewrite W; cbn [dispatch perform inflight]; apply nth_error_snoc
        | exact Hp |]
    end.
    unfold colorModal_shown.
    match goal with
    | |- context [selectedGarmentForColor (panel ?s)] =>
        change (selectedGarmentForColor (panel s))
          with (snd (fst (pending_selection s)))
    end.
    rewrite Hsel. reflexivity.
Qed.

Lemma late_settlement_replaces_upload_witness :
  garmentButton_disabled idle_props shirt = false
  /\ pending_selection
       (dispatch_all [clickGarment idle_props shirt;
                      changeFile sample_window (Some [photo]);
                      clickSwatch 5] initialSystem)
     = (Some photo,
        Some {| WardrobeItem.id := lit "custom-1700000000000";
                WardrobeItem.name := lit "dress.png";
                WardrobeItem.url := lit "blob:dress.png" |},
        lit "Blue")
  /\ pending_selection
       (dispatch_all [clickGarment idle_props shirt;
                      changeFile sample_window (Some [photo]);
                      clickSwatch 5;
                      acquired 0 browser_ok] initialSystem)
     = (Some shirt_file, Some shirt, lit "Original").
Proof.
  split; [reflexivity |]. split; [reflexivity |].
  destruct (late_settlement_replaces_upload idle_props shirt browser_ok
              shirt_file sample_window (Some [photo]) 5 initialSystem
              eq_refl eq_refl) as (H & _).
  exact H.
Defined.

(** ** Calls of the callback props *)

(** X16. After any sequence of events, one more event makes the panel
    call at most one callback prop: [onGarmentSelect] only on Confirm,
    [onSaveLook] only on a submission of the save form, [onSelectLook] only
    on Wear, with that look, and [onDeleteLook] only on the delete button
    of a look, with that look's id.  Clicks on garments and swatches,
    uploads, settlements, Cancel, tabs and typing call none. *)
Theorem each_event_calls_at_most_one_callback
  (events : list Event) (e : Event) :
  exists made,
    log (dispatch e (dispatch_all events initialSystem))
    = log (dispatch_all events initialSystem) ++ made
    /\ (List.length (callbacks made) <= 1)%nat
    /\ (forall f i c, In (onGarmentSelect f i c) made -> e = clickApply)
    /\ (forall name, In (onSaveLook name) made -> e = submitSave)
    /\ (forall look, In (onSelectLook look) made -> e = clickWear look)
    /\ (forall id, In (onDeleteLook id) made ->
          exists look, e = clickDelete look /\ id = SavedLook.id look).
Proof.
  destruct (reachable_invariant events) as (_ & _ & Hw).
  set (sys := dispatch_all events initialSystem) in *.
  assert (Hnone :
            exists made : list Call,
              log sys = log sys ++ made
              /\ (List.length (callbacks made) <= 1)%nat
              /\ (forall f i c, In (onGarmentSelect f i c) made -> e = clickApply)
              /\ (forall name, In (onSaveLook name) made -> e = submitSave)
              /\ (forall look, In (onSelectLook look) made -> e = clickWear look)
              /\ (forall id, In (onDeleteLook id) made ->
                    exists look, e = clickDelete look /\ id = SavedLook.id look)).
  { exists []. rewrite app_nil_r. cbn.
    repeat split; try lia; intros; contradiction. }
  destruct e as [props item | n b | w files | n | | | tab | | | value | | look | look];
    cbn [dispatch].
  - unfold handleGarmentClick. destruct (isLoading props || _); cbn [run];
      simp_sys; rewrite ?app_nil_r; exact Hnone.
  - destruct (nth_error (inflight sys) n) as [a |] eqn:Hn; [| exact Hnone].
    assert (Ha : wf_acquisition a).
    { apply (proj1 (Forall_forall _ _) Hw). eapply nth_error_In; eassumption. }
    destruct (wf_acquisition_inv a Ha) as (item & _ & _ & Htry & Hcatch).
    destruct (promise_of _) as [| file | err]; [exact Hnone | |].
    + rewrite Htry. simp_sys. rewrite app_nil_r. exact Hnone.
    + destruct (Hcatch err) as (msg & ->). simp_sys.
      eexists. split; [reflexivity |]. cbn.
      repeat split; try lia; intros; intuition discriminate.
  - unfold handleFileChange. destruct files as [[| file rest] |];
      try (rewrite perform_nil; exact Hnone).
    destruct (startsWith _ _); cbn [negb]; simp_sys; rewrite app_nil_r;
      exact Hnone.
  - destruct (nth_error COLORS n); [| exact Hnone].
    simp_sys. rewrite app_nil_r. exact Hnone.
  - unfold handleApplyGarment.
    destruct (pendingFile (panel sys)) as [f |];
      destruct (selectedGarmentForColor (panel sys)) as [i |];
      try (rewrite perform_nil; exact Hnone).
    simp_sys. eexists. split; [reflexivity |]. cbn.
    repeat split; try lia; intros; intuition discriminate.
  - simp_sys. rewrite app_nil_r. exact Hnone.
  - simp_sys. rewrite app_nil_r. exact Hnone.
  - simp_sys. rewrite app_nil_r. exact Hnone.
  - simp_sys. rewrite app_nil_r. exact Hnone.
  - simp_sys. rewrite app_nil_r. exact Hnone.
  - unfold handleSaveSubmit. destruct (truthy _); simp_sys;
      (eexists; split; [reflexivity |]); cbn;
      repeat split; try lia; intros; intuition discriminate.
  - simp_sys. eexists. split; [reflexivity |]. cbn.
    repeat split; try lia; intros; try intuition discriminate.
    destruct H as [[= ->] | []]. reflexivity.
  - simp_sys. eexists. split; [reflexivity |]. cbn.
    repeat split; try lia; intros; try intuition discriminate.
    destruct H as [[= <-] | []]. exists look. auto.
Qed.
